(** * Voice-agent calendar bridge: the request handlers of [index.js] and
      [server.js], embedded and checked against the specification.

    The handlers are Express routes that talk to one external collaborator,
    the calendar provider.  Each handler is embedded as a computation in a
    small state-and-exception monad: the state is the provider's own state
    together with the log of the provider calls issued so far, and an
    exception is whatever a JavaScript [throw] would carry into the
    handler's [catch].

    Conventions of the embedding.
    - Request fields are typed as the interface table types them: text
      fields are strings, [duration] and [newDuration] are whole numbers of
      minutes.  A field that is absent from the JSON object ([undefined]) is
      [None].  The [args] property itself is absent, [null], or a value
      with fields.
    - A [Date] object is its time value, [option Z]: milliseconds since the
      epoch, [None] for an Invalid Date.  Arithmetic on whole numbers in the
      time-value range is exact in IEEE doubles, so [Z] arithmetic followed
      by [TimeClip] is what the runtime computes.
    - Date strings follow ECMAScript 2016 and later: a date-time form
      without a UTC offset is a local time of the process.
    - What the JavaScript runtime leaves to the host (the process's local
      time zone, the parsing of date strings outside the standard format,
      locale formatting) is a field of the [Runtime] record.
    - The provider is a record of operations over a state of its own; the
      theorems hold for every provider.
    - [console.log] and [console.error] are not part of the state.

    The two files embedded are the ones the properties below are about;
    the repository's other, unnamed variants of [server.js] are not
    embedded. *)

From Stdlib Require Import ZArith List String Ascii Bool Lia.
From Stdlib Require Import DecimalString.
Import ListNotations.
Open Scope string_scope.
Open Scope Z_scope.

(* ================================================================== *)
(** ** JavaScript values of the request envelope *)

Module JS.

(** [!x] for a string-valued property: absent or the empty string. *)
Definition falsy (x : option string) : bool :=
  match x with
  | None => true
  | Some s => (s =? EmptyString)%string
  end.

Definition truthy (x : option string) : bool := negb (falsy x).

(** [!n] for a number-valued property: absent or zero. *)
Definition falsy_num (n : option Z) : bool :=
  match n with
  | None => true
  | Some z => z =? 0
  end.

Definition truthy_num (n : option Z) : bool := negb (falsy_num n).

(** [`${x}`] for a string-valued property. *)
Definition tmpl (x : option string) : string :=
  match x with
  | None => "undefined"
  | Some s => s
  end.

(** [x || d] for a string-valued property. *)
Definition or_else (x : option string) (d : string) : string :=
  match x with
  | None => d
  | Some s => if (s =? EmptyString)%string then d else s
  end.

(** [`${n}`] for a whole number. *)
Definition tmpl_Z (z : Z) : string := NilZero.string_of_int (Z.to_int z).

(** [`${xs.length}`]. *)
Definition tmpl_nat (n : nat) : string := tmpl_Z (Z.of_nat n).

(** [Array.prototype.join]. *)
Fixpoint join (sep : string) (xs : list string) : string :=
  match xs with
  | [] => EmptyString
  | [x] => x
  | x :: rest => x ++ sep ++ join sep rest
  end.

End JS.

(* ================================================================== *)
(** ** Dates: the part of ECMAScript's [Date] the handlers use *)

Module JSDate.

Definition msPerDay : Z := 86400000.
Definition maxTime : Z := 8640000000000000.

(** A Date object: its time value, [None] for an Invalid Date. *)
Definition Date : Type := option Z.

Definition TimeClip (t : Z) : Date :=
  if Z.abs t <=? maxTime then Some t else None.

Definition is_leap (y : Z) : bool :=
  ((y mod 4 =? 0) && negb (y mod 100 =? 0)) || (y mod 400 =? 0).

Definition DaysInMonth (y m : Z) : Z :=
  if m =? 2 then (if is_leap y then 29 else 28)
  else if (m =? 4) || (m =? 6) || (m =? 9) || (m =? 11) then 30
  else 31.

(** Day number (days since 1970-01-01) of a proleptic Gregorian date,
    month counted from 1. *)
Definition MakeDay (y m d : Z) : Z :=
  let y' := if m <=? 2 then y - 1 else y in
  let era := y' / 400 in
  let yoe := y' - era * 400 in
  let mp := (m + 9) mod 12 in
  let doy := (153 * mp + 2) / 5 + d - 1 in
  let doe := yoe * 365 + yoe / 4 - yoe / 100 + doy in
  era * 146097 + doe - 719468.

Definition MakeTime (h mi s ms : Z) : Z :=
  h * 3600000 + mi * 60000 + s * 1000 + ms.

Definition MakeDate (day time : Z) : Z := day * msPerDay + time.

(** Year, month (from 1) and day of month of a day number. *)
Definition civil_of_day (z0 : Z) : Z * Z * Z :=
  let z := z0 + 719468 in
  let era := z / 146097 in
  let doe := z - era * 146097 in
  let yoe := (doe - doe / 1460 + doe / 36524 - doe / 146096) / 365 in
  let y := yoe + era * 400 in
  let doy := doe - (365 * yoe + yoe / 4 - yoe / 100) in
  let mp := (5 * doy + 2) / 153 in
  let d := doy - (153 * mp + 2) / 5 + 1 in
  let m := if mp <? 10 then mp + 3 else mp - 9 in
  ((if m <=? 2 then y + 1 else y), m, d).

(** *** Printing *)

Definition digit_char (d : Z) : ascii :=
  ascii_of_nat (48 + Z.to_nat (d mod 10)).

(** The [n] low decimal digits of [z], most significant first. *)
Fixpoint pad (n : nat) (z : Z) : string :=
  match n with
  | O => EmptyString
  | S k => pad k (z / 10) ++ String (digit_char z) EmptyString
  end.

Definition year_string (y : Z) : string :=
  if (0 <=? y) && (y <=? 9999) then pad 4 y
  else if y <? 0 then "-" ++ pad 6 (- y)
  else "+" ++ pad 6 y.

Definition iso_of_time (t : Z) : string :=
  let day := t / msPerDay in
  let r := t mod msPerDay in
  let '(y, m, d) := civil_of_day day in
  year_string y ++ "-" ++ pad 2 m ++ "-" ++ pad 2 d ++ "T"
    ++ pad 2 (r / 3600000) ++ ":" ++ pad 2 (r / 60000 mod 60) ++ ":"
    ++ pad 2 (r / 1000 mod 60) ++ "." ++ pad 3 (r mod 1000) ++ "Z".

(** [Date.prototype.toISOString]: [None] is the RangeError thrown on an
    Invalid Date. *)
Definition toISOString (d : Date) : option string :=
  option_map iso_of_time d.

(** [Date.prototype.getTime]: [None] is NaN. *)
Definition getTime (d : Date) : option Z := d.

(** *** Parsing *)

Definition digit (c : ascii) : option Z :=
  let n := nat_of_ascii c in
  if ((48 <=? n) && (n <=? 57))%nat then Some (Z.of_nat (n - 48)) else None.

Fixpoint number (cs : list ascii) (acc : Z) : option Z :=
  match cs with
  | [] => Some acc
  | c :: rest =>
      match digit c with
      | Some d => number rest (10 * acc + d)
      | None => None
      end
  end.

(** The fields of a string of the shape [YYYY-MM-DDTHH:mm:ss], the
    date-time form of the Date Time String Format without a UTC offset,
    when every field is in its legal range. *)
Definition local_fields (s : string) : option (Z * Z * Z * Z * Z * Z) :=
  match list_ascii_of_string s with
  | [y1; y2; y3; y4; s1; m1; m2; s2; d1; d2; sT; h1; h2; s3; n1; n2; s4; c1; c2] =>
      if (Ascii.eqb s1 "-" && Ascii.eqb s2 "-" && Ascii.eqb sT "T"
          && Ascii.eqb s3 ":" && Ascii.eqb s4 ":")%bool%char
      then
        match number [y1; y2; y3; y4] 0, number [m1; m2] 0, number [d1; d2] 0,
              number [h1; h2] 0, number [n1; n2] 0, number [c1; c2] 0 with
        | Some y, Some m, Some d, Some h, Some mi, Some sec =>
            if (1 <=? m) && (m <=? 12) && (1 <=? d) && (d <=? DaysInMonth y m)
               && (h <=? 23) && (mi <=? 59) && (sec <=? 59)
            then Some (y, m, d, h, mi, sec)
            else None
        | _, _, _, _, _, _ => None
        end
      else None
  | _ => None
  end.

End JSDate.

(* ================================================================== *)
(** ** What the host runtime decides *)

(** [LocalTZA t] is the offset, in milliseconds, of the process's local time
    zone at local time [t].  [parse_other] is [Date.parse] on the strings
    outside the shape of [JSDate.local_fields], where engines differ.
    [toLocaleString d tz] is [d.toLocaleString('en-US', {hour: 'numeric',
    minute: '2-digit', timeZone: tz, hour12: true})]; [None] is the
    RangeError thrown for a zone name the runtime does not know.
    [toLocaleTimeString d] is [d.toLocaleTimeString('en-US', {hour:
    'numeric', minute: '2-digit'})]. *)
Record Runtime : Type := {
  LocalTZA : Z -> Z;
  parse_other : string -> option Z;
  toLocaleString : JSDate.Date -> string -> option string;
  toLocaleTimeString : JSDate.Date -> string
}.

Module DateCtor.
Import JSDate.

(** [Date.parse]: a date-time form without offset is a local time. *)
Definition parse (rt : Runtime) (s : string) : option Z :=
  match local_fields s with
  | Some (y, m, d, h, mi, sec) =>
      let t := MakeDate (MakeDay y m d) (MakeTime h mi sec 0) in
      Some (t - LocalTZA rt t)
  | None => parse_other rt s
  end.

(** [new Date(s)] for a string [s]. *)
Definition of_string (rt : Runtime) (s : string) : Date :=
  match parse rt s with
  | Some t => TimeClip t
  | None => None
  end.

(** [new Date(v)] for a property that is a string or [undefined]. *)
Definition of_value (rt : Runtime) (v : option string) : Date :=
  match v with
  | Some s => of_string rt s
  | None => None
  end.

(** [new Date(n)] for a number [n], [None] being NaN. *)
Definition of_number (n : option Z) : Date :=
  match n with
  | Some t => TimeClip t
  | None => None
  end.

End DateCtor.

(* ================================================================== *)
(** ** The calendar provider *)

Module Cal.

Record Error : Type := { message : string }.

Record EventDateTime : Type := {
  dateTime : option string;
  date : option string;
  timeZone : option string
}.

Record Reminder : Type := { method : string; minutes : Z }.

Record Reminders : Type := { useDefault : bool; overrides : list Reminder }.

Record Attendee : Type := { email : string }.

(** An event resource, as the handlers build and read it. *)
Record Event : Type := {
  id : option string;
  htmlLink : option string;
  summary : option string;
  description : option string;
  start : option EventDateTime;
  end_ : option EventDateTime;
  reminders : option Reminders;
  attendees : option (list Attendee)
}.

Record ListParams : Type := {
  list_calendarId : string;
  timeMin : string;
  timeMax : string;
  singleEvents : bool;
  orderBy : option string;
  list_timeZone : option string
}.

Record InsertParams : Type := {
  insert_calendarId : string;
  insert_resource : Event;
  sendUpdates : option string
}.

Record GetParams : Type := { get_calendarId : string; get_eventId : string }.

Record UpdateParams : Type := {
  update_calendarId : string;
  update_eventId : string;
  update_resource : Event
}.

Record DeleteParams : Type := {
  delete_calendarId : string;
  delete_eventId : string
}.

(** The calls a handler can issue. [GetClient] is [auth.getClient()]. *)
Inductive Call : Type :=
| EventsList (p : ListParams)
| EventsInsert (p : InsertParams)
| EventsGet (p : GetParams)
| EventsUpdate (p : UpdateParams)
| EventsDelete (p : DeleteParams)
| GetClient.

Definition is_read (c : Call) : bool :=
  match c with
  | EventsList _ | EventsGet _ | GetClient => true
  | EventsInsert _ | EventsUpdate _ | EventsDelete _ => false
  end.

Definition is_list (c : Call) : bool :=
  match c with EventsList _ => true | _ => false end.

Definition is_insert (c : Call) : bool :=
  match c with EventsInsert _ => true | _ => false end.

(** What an operation resolves to: the response envelope, whose [data]
    property is the resource.  The envelope's other properties (status,
    headers, ...) are not read by any handler. *)
Record Envelope (A : Type) : Type := { data : A }.

Arguments data {A} e.

(** The resource of [events.list]; [items] may be missing. *)
Record Events : Type := { items : option (list Event) }.

(** The provider is a black box with a state of its own.  Every operation
    either throws an [Error] or resolves to an envelope. *)
Record Provider : Type := {
  pstate : Type;
  events_list :
    ListParams -> pstate -> (Error + Envelope Events) * pstate;
  events_insert :
    InsertParams -> pstate -> (Error + Envelope Event) * pstate;
  events_get :
    GetParams -> pstate -> (Error + Envelope Event) * pstate;
  events_update :
    UpdateParams -> pstate -> (Error + Envelope Event) * pstate;
  events_delete :
    DeleteParams -> pstate -> (Error + Envelope unit) * pstate;
  getClient : pstate -> (Error + unit) * pstate
}.

End Cal.

(* ================================================================== *)
(** ** Handlers as computations *)

(** What a [throw] carries: a provider error, or one of the runtime's own. *)
Inductive Exn : Type :=
| Thrown (e : Cal.Error)
| TypeError
| RangeError.

(** One issued call and whether the provider threw on it. *)
Record Entry : Type := { call : Cal.Call; failure : option Cal.Error }.

(** The request envelope [{ args: { ... } }]. *)
Record Args : Type := {
  date : option string;
  startTime : option string;
  endTime : option string;
  title : option string;
  duration : option Z;
  description : option string;
  attendeeEmail : option string;
  eventId : option string;
  newDate : option string;
  newTime : option string;
  newDuration : option Z
}.

Definition no_args : Args :=
  {| date := None; startTime := None; endTime := None; title := None;
     duration := None; description := None; attendeeEmail := None;
     eventId := None; newDate := None; newTime := None;
     newDuration := None |}.

(** The [args] property of the request body: absent, [null], or a value
    with properties.  A JSON number, string, boolean or array has none of
    the properties a route reads, and is the object without them. *)
Inductive ArgsValue : Type :=
| ArgsUndefined
| ArgsNull
| ArgsObject (a : Args).

Record Request : Type := { args : ArgsValue }.

(** [res.status(s).json({ result, eventId, eventLink })]. *)
Record Response : Type := {
  status : Z;
  result : string;
  res_eventId : option string;
  res_eventLink : option string
}.

Definition json (r : string) : Response :=
  {| status := 200; result := r; res_eventId := None; res_eventLink := None |}.

Record Env : Type := {
  TIMEZONE : option string;
  GOOGLE_CALENDAR_ID : option string
}.

Definition dquote : string := String (ascii_of_nat 34) EmptyString.

Section Monad.

Variable P : Cal.Provider.

Record World : Type := { provider_state : Cal.pstate P; log : list Entry }.

Definition M (A : Type) : Type := World -> (Exn + A) * World.

Definition ret {A} (a : A) : M A := fun w => (inr a, w).

Definition throw {A} (e : Exn) : M A := fun w => (inl e, w).

Definition bind {A B} (m : M A) (k : A -> M B) : M B :=
  fun w =>
    match m w with
    | (inr a, w') => k a w'
    | (inl e, w') => (inl e, w')
    end.

(** A route handler: it answers, and leaves the world behind. *)
Definition Handler : Type := World -> Response * World.

Definition send (r : Response) : Handler := fun w => (r, w).

(** [try { m } catch (error) { res.json(h error) }] around a whole handler
    body. *)
Definition try_catch (m : M Response) (h : Exn -> Response) : Handler :=
  fun w =>
    match m w with
    | (inr r, w') => (r, w')
    | (inl e, w') => (h e, w')
    end.

(** [await] of one provider operation: the call is logged, the provider's
    state advances, and a rejection is thrown. *)
Definition invoke {A} (c : Cal.Call)
    (op : Cal.pstate P -> (Cal.Error + A) * Cal.pstate P) : M A :=
  fun w =>
    match op (provider_state w) with
    | (inr a, s') =>
        (inr a, {| provider_state := s';
                   log := log w ++ [ {| call := c; failure := None |} ] |})
    | (inl e, s') =>
        (inl (Thrown e),
         {| provider_state := s';
            log := log w ++ [ {| call := c; failure := Some e |} ] |})
    end.

(** A property read that throws a TypeError when its object is missing. *)
Definition prop {A} (o : option A) : M A :=
  match o with
  | Some a => ret a
  | None => throw TypeError
  end.

(** A call that throws a RangeError, such as [toISOString] on an Invalid
    Date. *)
Definition ranged {A} (o : option A) : M A :=
  match o with
  | Some a => ret a
  | None => throw RangeError
  end.

Fixpoint mapM {A B} (f : A -> M B) (xs : list A) : M (list B) :=
  match xs with
  | [] => ret []
  | x :: rest =>
      bind (f x) (fun y => bind (mapM f rest) (fun ys => ret (y :: ys)))
  end.

End Monad.

Arguments ret {P A} a.
Arguments throw {P A} e.
Arguments bind {P A B} m k.
Arguments try_catch {P} m h.
Arguments send {P} r w.
Arguments invoke {P A} c op.
Arguments prop {P A} o.
Arguments ranged {P A} o.
Arguments mapM {P A B} f xs.
Arguments provider_state {P} w.
Arguments log {P} w.

Notation "x <- m ;; k" := (bind m (fun x => k))
  (at level 61, m at next level, right associativity).

Definition events_list {P} (p : Cal.ListParams) : M P (Cal.Envelope Cal.Events) :=
  invoke (Cal.EventsList p) (Cal.events_list P p).

Definition events_insert {P} (p : Cal.InsertParams)
  : M P (Cal.Envelope Cal.Event) :=
  invoke (Cal.EventsInsert p) (Cal.events_insert P p).

Definition events_get {P} (p : Cal.GetParams)
  : M P (Cal.Envelope Cal.Event) :=
  invoke (Cal.EventsGet p) (Cal.events_get P p).

Definition events_update {P} (p : Cal.UpdateParams)
  : M P (Cal.Envelope Cal.Event) :=
  invoke (Cal.EventsUpdate p) (Cal.events_update P p).

Definition events_delete {P} (p : Cal.DeleteParams)
  : M P (Cal.Envelope unit) :=
  invoke (Cal.EventsDelete p) (Cal.events_delete P p).

Definition getClient {P} : M P unit :=
  invoke Cal.GetClient (Cal.getClient P).

(* ================================================================== *)
(** ** [index.js] *)

Module Index.

(** [let calendar = null; let authError = null;] *)
Inductive Handle : Type := GoogleCalendarV3.

Record State : Type := {
  calendar : option Handle;
  authError : option Cal.Error
}.

Definition msg_initializing : string :=
  "The calendar service is still initializing. Please try again in a moment.".

Definition msg_check_guidance : string :=
  "I need a date, start time, and end time to check availability. Could you please provide those details?".

Definition msg_check_apology : string :=
  "I encountered an issue checking the calendar. Please try again.".

Definition msg_create_guidance : string :=
  "To create an appointment, I need a title, date, and start time. What would you like to schedule?".

Definition msg_conflict : string :=
  "There's already an appointment scheduled at that time. Would you like me to find another available time slot?".

Definition msg_create_apology : string :=
  "I couldn't create the appointment. Please check the details and try again.".

Definition msg_update_guidance : string :=
  "To update an appointment, I need the event ID and at least one thing to change (date, time, or duration).".

Definition msg_update_apology : string :=
  "I couldn't update the appointment. Please make sure you have the correct event ID.".

Definition msg_cancel_guidance : string :=
  "To cancel an appointment, I need the event ID. Which appointment would you like to cancel?".

Definition msg_cancelled : string :=
  "I've successfully cancelled your appointment. Is there anything else I can help you with?".

Definition msg_cancel_apology : string :=
  "I couldn't cancel the appointment. Please verify the appointment details.".

Definition msg_free (date startTime endTime : string) : string :=
  "Great news! Your calendar is completely free on " ++ date ++ " between "
    ++ startTime ++ " and " ++ endTime ++ ".".

Definition msg_busy (date : string) (n : nat) (eventSummaries : string) : string :=
  "On " ++ date ++ ", you have " ++ JS.tmpl_nat n ++ " appointment"
    ++ (if (1 <? n)%nat then "s" else EmptyString) ++ ": " ++ eventSummaries
    ++ ". Would you like to schedule around these times?".

Definition msg_created (title date formattedTime : string) (duration : Z)
    (attendeeEmail : option string) : string :=
  "Perfect! I've scheduled " ++ dquote ++ title ++ dquote ++ " on " ++ date
    ++ " at " ++ formattedTime ++ " for " ++ JS.tmpl_Z duration ++ " minutes. "
    ++ (if JS.truthy attendeeEmail
        then "An invitation has been sent to " ++ JS.tmpl attendeeEmail ++ "."
        else EmptyString)
    ++ " You'll receive a reminder 30 minutes before.".

Definition msg_updated (newDate newTime : option string) : string :=
  "I've successfully updated your appointment. "
    ++ (if JS.truthy newDate then "New date: " ++ JS.tmpl newDate ++ "."
        else EmptyString)
    ++ " "
    ++ (if JS.truthy newTime then "New time: " ++ JS.tmpl newTime ++ "."
        else EmptyString).

Section Routes.

Variable P : Cal.Provider.
Variable rt : Runtime.
Variable env : Env.
Variable st : State.

(** [const CALENDAR_ID = process.env.GOOGLE_CALENDAR_ID || '...'] *)
Definition CALENDAR_ID : string :=
  JS.or_else (GOOGLE_CALENDAR_ID env) "colinyuan3333@gmail.com".

(** [process.env.TIMEZONE || 'America/Chicago'] *)
Definition timeZone : string := JS.or_else (TIMEZONE env) "America/Chicago".

(** [const { args = {} } = req.body]: the default replaces [undefined]
    only, so [args] may still be [null], which is [None] here. *)
Definition args_default (req : Request) : option Args :=
  match args req with
  | ArgsUndefined => Some no_args
  | ArgsNull => None
  | ArgsObject a => Some a
  end.

(** The properties a route reads off [args]: none of them when [args] is
    [null], on which the destructuring throws before any is read. *)
Definition args_of (req : Request) : Args :=
  match args_default req with
  | Some a => a
  | None => no_args
  end.

(** The middleware in front of every operation route. *)
Definition requireCalendar (next : Handler P) : Handler P :=
  match calendar st with
  | None => send (json msg_initializing)
  | Some _ => next
  end.

(** [new Date(`${date}T${time}:00`)] *)
Definition local_date (date time : option string) : JSDate.Date :=
  DateCtor.of_string rt (JS.tmpl date ++ "T" ++ JS.tmpl time ++ ":00").

(** The callback of [events.map] in the availability route. *)
Definition eventSummary (event : Cal.Event) : M P string :=
  start <- prop (Cal.start event) ;;
  let eventStart :=
    if JS.truthy (Cal.dateTime start) then Cal.dateTime start
    else Cal.date start in
  let startDate := DateCtor.of_value rt eventStart in
  formattedTime <- ranged (toLocaleString rt startDate timeZone) ;;
  ret (formattedTime ++ ": " ++ JS.or_else (Cal.summary event) "Busy").

Definition check_availability_body (req : Request) : M P Response :=
  (* const { ... } = args: a TypeError when args is null *)
  a <- prop (args_default req) ;;
  if JS.falsy (date a) || JS.falsy (startTime a) || JS.falsy (endTime a)
  then ret (json msg_check_guidance)
  else
    timeMin <- ranged (JSDate.toISOString (local_date (date a) (startTime a))) ;;
    timeMax <- ranged (JSDate.toISOString (local_date (date a) (endTime a))) ;;
    response <- events_list
      {| Cal.list_calendarId := CALENDAR_ID;
         Cal.timeMin := timeMin;
         Cal.timeMax := timeMax;
         Cal.singleEvents := true;
         Cal.orderBy := Some "startTime";
         Cal.list_timeZone := Some timeZone |} ;;
    let events :=
      match Cal.items (Cal.data response) with
      | Some l => l
      | None => []
      end in
    if (List.length events =? 0)%nat
    then ret (json (msg_free (JS.tmpl (date a)) (JS.tmpl (startTime a))
                             (JS.tmpl (endTime a))))
    else
      eventSummaries <- mapM eventSummary events ;;
      ret (json (msg_busy (JS.tmpl (date a)) (List.length events)
                          (JS.join ", " eventSummaries))).

Definition check_availability (req : Request) : Handler P :=
  requireCalendar
    (try_catch (check_availability_body req)
               (fun error => json msg_check_apology)).

(** The event resource of the create route. *)
Definition new_event (a : Args) (startISO endISO : string) : Cal.Event :=
  {| Cal.id := None;
     Cal.htmlLink := None;
     Cal.summary := title a;
     Cal.description :=
       Some (JS.or_else (description a)
                        "Appointment created via Retell voice agent");
     Cal.start := Some {| Cal.dateTime := Some startISO; Cal.date := None;
                          Cal.timeZone := Some timeZone |};
     Cal.end_ := Some {| Cal.dateTime := Some endISO; Cal.date := None;
                         Cal.timeZone := Some timeZone |};
     Cal.reminders :=
       Some {| Cal.useDefault := false;
               Cal.overrides :=
                 [ {| Cal.method := "email"; Cal.minutes := 24 * 60 |};
                   {| Cal.method := "popup"; Cal.minutes := 30 |} ] |};
     Cal.attendees :=
       if JS.truthy (attendeeEmail a)
       then Some [ {| Cal.email := JS.tmpl (attendeeEmail a) |} ]
       else None |}.

(** [duration = 60] in the destructuring of [args]. *)
Definition duration_of (a : Args) : Z :=
  match duration a with
  | Some d => d
  | None => 60
  end.

Definition create_event_body (req : Request) : M P Response :=
  (* const { ... } = args: a TypeError when args is null *)
  a <- prop (args_default req) ;;
  let duration := duration_of a in
  if JS.falsy (title a) || JS.falsy (date a) || JS.falsy (startTime a)
  then ret (json msg_create_guidance)
  else
    let startDateTime := local_date (date a) (startTime a) in
    let endDateTime :=
      DateCtor.of_number
        (option_map (fun t => t + duration * 60000)
                    (JSDate.getTime startDateTime)) in
    timeMin <- ranged (JSDate.toISOString startDateTime) ;;
    timeMax <- ranged (JSDate.toISOString endDateTime) ;;
    conflicts <- events_list
      {| Cal.list_calendarId := CALENDAR_ID;
         Cal.timeMin := timeMin;
         Cal.timeMax := timeMax;
         Cal.singleEvents := true;
         Cal.orderBy := None;
         Cal.list_timeZone := None |} ;;
    if match Cal.items (Cal.data conflicts) with
       | Some l => (0 <? List.length l)%nat
       | None => false
       end
    then ret (json msg_conflict)
    else
      startISO <- ranged (JSDate.toISOString startDateTime) ;;
      endISO <- ranged (JSDate.toISOString endDateTime) ;;
      response <- events_insert
        {| Cal.insert_calendarId := CALENDAR_ID;
           Cal.insert_resource := new_event a startISO endISO;
           Cal.sendUpdates :=
             Some (if JS.truthy (attendeeEmail a) then "all" else "none") |} ;;
      let formattedTime := toLocaleTimeString rt startDateTime in
      ret {| status := 200;
             result := msg_created (JS.tmpl (title a)) (JS.tmpl (date a))
                         formattedTime duration (attendeeEmail a);
             res_eventId := Cal.id (Cal.data response);
             res_eventLink := Cal.htmlLink (Cal.data response) |}.

Definition create_event (req : Request) : Handler P :=
  requireCalendar
    (try_catch (create_event_body req)
               (fun error => json msg_create_apology)).

(** [existingEvent.start.dateTime] and [existingEvent.end.dateTime], read or
    written.  [existingEvent] is what [await calendar.events.get(...)]
    resolves to, the response envelope; the event resource is its [data]
    property, which is how this very route passes it on
    ([resource: existingEvent.data]) and how every route reads a response
    ([response.data.id], [response.data.items]).  The envelope has no
    property [start] or [end], so the access to [.dateTime] is an access on
    [undefined] and throws a TypeError. *)
Definition envelope_dateTime {A} (existingEvent : Cal.Envelope Cal.Event)
  : M P A :=
  throw TypeError.

Definition update_event_body (req : Request) : M P Response :=
  (* const { ... } = args: a TypeError when args is null *)
  a <- prop (args_default req) ;;
  if JS.falsy (eventId a)
     || (JS.falsy (newDate a) && JS.falsy (newTime a)
         && JS.falsy_num (newDuration a))
  then ret (json msg_update_guidance)
  else
    existingEvent <- events_get
      {| Cal.get_calendarId := CALENDAR_ID;
         Cal.get_eventId := JS.tmpl (eventId a) |} ;;
    _ <- (if JS.truthy (newDate a) || JS.truthy (newTime a)
          then
            date <- (if JS.truthy (newDate a) then ret (newDate a)
                     else envelope_dateTime existingEvent) ;;
            time <- (if JS.truthy (newTime a) then ret (newTime a)
                     else envelope_dateTime existingEvent) ;;
            duration <- (if JS.truthy_num (newDuration a)
                         then prop (newDuration a)
                         else envelope_dateTime existingEvent) ;;
            (* existingEvent.start.dateTime = new Date(...).toISOString():
               the right-hand side, then the write; both throw into the
               same catch *)
            _ <- ranged (JSDate.toISOString (local_date date time)) ;;
            envelope_dateTime existingEvent
          else ret tt) ;;
    response <- events_update
      {| Cal.update_calendarId := CALENDAR_ID;
         Cal.update_eventId := JS.tmpl (eventId a);
         Cal.update_resource := Cal.data existingEvent |} ;;
    ret {| status := 200;
           result := msg_updated (newDate a) (newTime a);
           res_eventId := Cal.id (Cal.data response);
           res_eventLink := None |}.

Definition update_event (req : Request) : Handler P :=
  requireCalendar
    (try_catch (update_event_body req)
               (fun error => json msg_update_apology)).

Definition cancel_event_body (req : Request) : M P Response :=
  (* const { ... } = args: a TypeError when args is null *)
  a <- prop (args_default req) ;;
  if JS.falsy (eventId a)
  then ret (json msg_cancel_guidance)
  else
    _ <- events_delete
      {| Cal.delete_calendarId := CALENDAR_ID;
         Cal.delete_eventId := JS.tmpl (eventId a) |} ;;
    ret (json msg_cancelled).

Definition cancel_event (req : Request) : Handler P :=
  requireCalendar
    (try_catch (cancel_event_body req)
               (fun error => json msg_cancel_apology)).

End Routes.

End Index.

(* ================================================================== *)
(** ** [server.js] *)

Module Server.

(** [let auth; let authError = null;]  The start-up block assigns [auth] as
    its last step, so [auth] is defined exactly when [authError] is still
    [null]. *)
Record State : Type := { authError : option Cal.Error }.

Definition msg_not_configured : string :=
  "Service is not properly configured. Please check server logs.".

Definition msg_check_apology : string :=
  "I'm having trouble checking the calendar. Please try again.".

Definition msg_create_apology : string :=
  "I couldn't create the appointment. Please check the details and try again.".

Definition msg_free (date startTime endTime : string) : string :=
  "The calendar is free on " ++ date ++ " between " ++ startTime ++ " and "
    ++ endTime ++ ".".

Definition msg_busy (n : nat) (date startTime endTime : string) : string :=
  "There are " ++ JS.tmpl_nat n ++ " appointments on " ++ date ++ " between "
    ++ startTime ++ " and " ++ endTime ++ ".".

Definition msg_created (title date startTime : string) (duration : Z) : string :=
  "I've scheduled " ++ dquote ++ title ++ dquote ++ " on " ++ date ++ " at "
    ++ startTime ++ " for " ++ JS.tmpl_Z duration ++ " minutes.".

Section Routes.

Variable P : Cal.Provider.
Variable rt : Runtime.
Variable st : State.

(** [const { args } = req.body]: there is no default, and the
    destructuring that follows throws on [undefined] and on [null], which
    are [None] here. *)
Definition args_of (req : Request) : option Args :=
  match args req with
  | ArgsObject a => Some a
  | ArgsUndefined | ArgsNull => None
  end.

(** [if (authError) { return res.status(503).json({ result: ... }) }] *)
Definition requireAuth (next : Handler P) : Handler P :=
  match authError st with
  | Some _ =>
      send {| status := 503; result := msg_not_configured;
              res_eventId := None; res_eventLink := None |}
  | None => next
  end.

Definition local_date (date time : option string) : JSDate.Date :=
  DateCtor.of_string rt (JS.tmpl date ++ "T" ++ JS.tmpl time ++ ":00").

Definition check_availability_body (req : Request) : M P Response :=
  a <- prop (args_of req) ;;
  _ <- getClient ;;
  timeMin <- ranged (JSDate.toISOString (local_date (date a) (startTime a))) ;;
  timeMax <- ranged (JSDate.toISOString (local_date (date a) (endTime a))) ;;
  response <- events_list
    {| Cal.list_calendarId := "primary";
       Cal.timeMin := timeMin;
       Cal.timeMax := timeMax;
       Cal.singleEvents := true;
       Cal.orderBy := Some "startTime";
       Cal.list_timeZone := None |} ;;
  let events :=
    match Cal.items (Cal.data response) with
    | Some l => l
    | None => []
    end in
  if (List.length events =? 0)%nat
  then ret (json (msg_free (JS.tmpl (date a)) (JS.tmpl (startTime a))
                           (JS.tmpl (endTime a))))
  else ret (json (msg_busy (List.length events) (JS.tmpl (date a))
                           (JS.tmpl (startTime a)) (JS.tmpl (endTime a)))).

Definition check_availability (req : Request) : Handler P :=
  requireAuth
    (try_catch (check_availability_body req)
               (fun error => json msg_check_apology)).

Definition new_event (a : Args) (startISO endISO : string) : Cal.Event :=
  {| Cal.id := None;
     Cal.htmlLink := None;
     Cal.summary := title a;
     Cal.description := None;
     Cal.start := Some {| Cal.dateTime := Some startISO; Cal.date := None;
                          Cal.timeZone := Some "America/Chicago" |};
     Cal.end_ := Some {| Cal.dateTime := Some endISO; Cal.date := None;
                         Cal.timeZone := Some "America/Chicago" |};
     Cal.reminders := None;
     Cal.attendees := None |}.

Definition duration_of (a : Args) : Z :=
  match duration a with
  | Some d => d
  | None => 60
  end.

Definition create_event_body (req : Request) : M P Response :=
  a <- prop (args_of req) ;;
  let duration := duration_of a in
  _ <- getClient ;;
  let startDateTime := local_date (date a) (startTime a) in
  let endDateTime :=
    DateCtor.of_number
      (option_map (fun t => t + duration * 60000)
                  (JSDate.getTime startDateTime)) in
  startISO <- ranged (JSDate.toISOString startDateTime) ;;
  endISO <- ranged (JSDate.toISOString endDateTime) ;;
  response <- events_insert
    {| Cal.insert_calendarId := "primary";
       Cal.insert_resource := new_event a startISO endISO;
       Cal.sendUpdates := None |} ;;
  ret {| status := 200;
         result := msg_created (JS.tmpl (title a)) (JS.tmpl (date a))
                               (JS.tmpl (startTime a)) duration;
         res_eventId := Cal.id (Cal.data response);
         res_eventLink := None |}.

Definition create_event (req : Request) : Handler P :=
  requireAuth
    (try_catch (create_event_body req)
               (fun error => json msg_create_apology)).

End Routes.

End Server.

(* ================================================================== *)
(** ** A provider and a runtime to run the handlers on *)

Module Fixture.

(** A provider that answers every call from a fixed script and counts the
    write calls it has served. *)
Definition scripted (items : option (list Cal.Event)) (stored : Cal.Event)
  : Cal.Provider :=
  {| Cal.pstate := nat;
     Cal.events_list := fun _ n => (inr {| Cal.data := {| Cal.items := items |} |}, n);
     Cal.events_insert := fun p n => (inr {| Cal.data := stored |}, S n);
     Cal.events_get := fun _ n => (inr {| Cal.data := stored |}, n);
     Cal.events_update := fun p n => (inr {| Cal.data := stored |}, S n);
     Cal.events_delete := fun _ n => (inr {| Cal.data := tt |}, S n);
     Cal.getClient := fun n => (inr tt, n) |}.

(** A provider on which every call throws. *)
Definition failing (e : Cal.Error) : Cal.Provider :=
  {| Cal.pstate := unit;
     Cal.events_list := fun _ u => (inl e, u);
     Cal.events_insert := fun _ u => (inl e, u);
     Cal.events_get := fun _ u => (inl e, u);
     Cal.events_update := fun _ u => (inl e, u);
     Cal.events_delete := fun _ u => (inl e, u);
     Cal.getClient := fun u => (inl e, u) |}.

(** A runtime whose local zone is at a fixed offset from UTC, that knows
    no date format beyond the standard one, and that prints a time as its
    ISO string. *)
Definition fixed_zone (offset : Z) : Runtime :=
  {| LocalTZA := fun _ => offset;
     parse_other := fun _ => None;
     toLocaleString := fun d _ =>
       Some (match d with
             | Some t => JSDate.iso_of_time t
             | None => "Invalid Date"
             end);
     toLocaleTimeString := fun d =>
       match d with
       | Some t => JSDate.iso_of_time t
       | None => "Invalid Date"
       end |}.

Definition default_env : Env :=
  {| TIMEZONE := None; GOOGLE_CALENDAR_ID := None |}.

Definition ready : Index.State :=
  {| Index.calendar := Some Index.GoogleCalendarV3; Index.authError := None |}.

Definition not_ready : Index.State :=
  {| Index.calendar := None; Index.authError := None |}.

Definition dentist : Args :=
  {| date := Some "2024-06-01"; startTime := Some "09:00"; endTime := None;
     title := Some "Dentist"; duration := None; description := None;
     attendeeEmail := None; eventId := None; newDate := None;
     newTime := None; newDuration := None |}.

Definition stored_event : Cal.Event :=
  {| Cal.id := Some "abc123";
     Cal.htmlLink := Some "https://calendar.example/abc123";
     Cal.summary := Some "Standup";
     Cal.description := None;
     Cal.start := Some {| Cal.dateTime := Some "2024-06-01T09:00:00";
                          Cal.date := None; Cal.timeZone := None |};
     Cal.end_ := Some {| Cal.dateTime := Some "2024-06-01T10:00:00";
                         Cal.date := None; Cal.timeZone := None |};
     Cal.reminders := None;
     Cal.attendees := None |}.

Definition untitled : Args :=
  {| date := Some "2024-06-01"; startTime := Some "09:00"; endTime := None;
     title := None; duration := None; description := None;
     attendeeEmail := None; eventId := None; newDate := None;
     newTime := None; newDuration := None |}.

Definition nine_to_ten : Args :=
  {| date := Some "2024-06-01"; startTime := Some "09:00";
     endTime := Some "10:00"; title := None; duration := None;
     description := None; attendeeEmail := None; eventId := None;
     newDate := None; newTime := None; newDuration := None |}.

Definition move_to_eleven : Args :=
  {| date := None; startTime := None; endTime := None; title := None;
     duration := None; description := None; attendeeEmail := None;
     eventId := Some "abc123"; newDate := None; newTime := Some "11:00";
     newDuration := None |}.

Definition shorten_to_30 : Args :=
  {| date := None; startTime := None; endTime := None; title := None;
     duration := None; description := None; attendeeEmail := None;
     eventId := Some "abc123"; newDate := None; newTime := None;
     newDuration := Some 30 |}.

Definition cancel_abc123 : Args :=
  {| date := None; startTime := None; endTime := None; title := None;
     duration := None; description := None; attendeeEmail := None;
     eventId := Some "abc123"; newDate := None; newTime := None;
     newDuration := None |}.

(** A calendar that holds [stored_event], and an empty one. *)
Definition busy : Cal.Provider := scripted (Some [stored_event]) stored_event.

Definition free : Cal.Provider := scripted (Some []) stored_event.

Definition server_ok : Server.State := {| Server.authError := None |}.

Definition server_failed : Server.State :=
  {| Server.authError :=
       Some {| Cal.message := "GOOGLE_SERVICE_ACCOUNT_KEY environment variable is missing" |} |}.

End Fixture.

(** One request, served from provider state [s] with an empty call log. *)
Definition run {P} (h : Handler P) (s : Cal.pstate P) : Response * World P :=
  h {| provider_state := s; log := [] |}.

Definition ok (c : Cal.Call) : Entry := {| call := c; failure := None |}.

Definition ko (c : Cal.Call) (e : Cal.Error) : Entry :=
  {| call := c; failure := Some e |}.

(** The window query of the create route of [index.js]. *)
Definition conflict_query (env : Env) (tmin tmax : Z) : Cal.ListParams :=
  {| Cal.list_calendarId := Index.CALENDAR_ID env;
     Cal.timeMin := JSDate.iso_of_time tmin;
     Cal.timeMax := JSDate.iso_of_time tmax;
     Cal.singleEvents := true;
     Cal.orderBy := None;
     Cal.list_timeZone := None |}.

(** The insert call of the create route of [index.js]. *)
Definition insert_call (env : Env) (a : Args) (tmin tmax : Z) : Cal.InsertParams :=
  {| Cal.insert_calendarId := Index.CALENDAR_ID env;
     Cal.insert_resource :=
       Index.new_event env a (JSDate.iso_of_time tmin) (JSDate.iso_of_time tmax);
     Cal.sendUpdates :=
       Some (if JS.truthy (attendeeEmail a) then "all" else "none") |}.

(** [response.data.items || []] *)
Definition items_or_empty (r : Cal.Envelope Cal.Events) : list Cal.Event :=
  match Cal.items (Cal.data r) with
  | Some l => l
  | None => []
  end.

(** The window query of the availability route of [index.js]. *)
Definition availability_query (env : Env) (tmin tmax : Z) : Cal.ListParams :=
  {| Cal.list_calendarId := Index.CALENDAR_ID env;
     Cal.timeMin := JSDate.iso_of_time tmin;
     Cal.timeMax := JSDate.iso_of_time tmax;
     Cal.singleEvents := true;
     Cal.orderBy := Some "startTime";
     Cal.list_timeZone := Some (Index.timeZone env) |}.

(** The window query of the availability route of [server.js]. *)
Definition server_query (tmin tmax : Z) : Cal.ListParams :=
  {| Cal.list_calendarId := "primary";
     Cal.timeMin := JSDate.iso_of_time tmin;
     Cal.timeMax := JSDate.iso_of_time tmax;
     Cal.singleEvents := true;
     Cal.orderBy := Some "startTime";
     Cal.list_timeZone := None |}.

(** [line] is what the availability route of [index.js] says about
    [event]: its start, printed as a time of day in the configured zone,
    and its title. *)
Definition listed (rt : Runtime) (env : Env) (event : Cal.Event)
    (line : string) : Prop :=
  exists start formattedTime,
    Cal.start event = Some start /\
    toLocaleString rt
      (DateCtor.of_value rt
         (if JS.truthy (Cal.dateTime start) then Cal.dateTime start
          else Cal.date start))
      (Index.timeZone env) = Some formattedTime /\
    line = formattedTime ++ ": " ++ JS.or_else (Cal.summary event) "Busy".

(** The lookup of the update route of [index.js]. *)
Definition get_query (env : Env) (a : Args) : Cal.GetParams :=
  {| Cal.get_calendarId := Index.CALENDAR_ID env;
     Cal.get_eventId := JS.tmpl (eventId a) |}.

(** The write-back of the update route of [index.js]. *)
Definition update_call (env : Env) (a : Args) (resource : Cal.Event)
  : Cal.UpdateParams :=
  {| Cal.update_calendarId := Index.CALENDAR_ID env;
     Cal.update_eventId := JS.tmpl (eventId a);
     Cal.update_resource := resource |}.

(** A small program logic for handler bodies: from a world where [I]
    holds, a normal outcome leaves [I] and a thrown one leaves [B]. *)
Definition safe {P A} (I B : World P -> Prop) (m : M P A) : Prop :=
  forall w, I w ->
    match m w with
    | (inr _, w') => I w'
    | (inl _, w') => B w'
    end.

(** The creation conflict rule for a create route [h] served from provider
    state [s]: the first call lists the events of [window]; when the
    provider answers with events, the route answers [refusal] and issues
    nothing else; and an insert is only ever issued after the provider
    answered the listing with no event. *)
Definition conflict_rule {P} (h : Handler P) (window : Cal.ListParams)
    (refusal : string) (s : Cal.pstate P) : Prop :=
  let out := run h s in
  (exists f rest,
     log (snd out) = {| call := Cal.EventsList window; failure := f |} :: rest)
  /\ (forall conflicts s1,
        Cal.events_list P window s = (inr conflicts, s1) ->
        items_or_empty conflicts <> [] ->
        fst out = json refusal /\
        snd out = {| provider_state := s1;
                     log := [ok (Cal.EventsList window)] |})
  /\ (forall e,
        In e (log (snd out)) -> Cal.is_insert (call e) = true ->
        exists conflicts s1,
          Cal.events_list P window s = (inr conflicts, s1) /\
          items_or_empty conflicts = []).

(** The route [h] turns the request down on its own: it answers
    [guidance] with status 200 and has issued no call. *)
Definition rejects_locally {P} (h : Handler P) (guidance : string)
    (s : Cal.pstate P) : Prop :=
  run h s = (json guidance, {| provider_state := s; log := [] |}).

(** No call in the log was rejected by the provider. *)
Definition all_answered {P} (w : World P) : Prop :=
  Forall (fun e => failure e = None) (log w).

(** Every call in the log satisfies [allowed]. *)
Definition only_calls {P} (allowed : Cal.Call -> bool) (w : World P) : Prop :=
  Forall (fun e => allowed (call e) = true) (log w).

(** The provider is in state [s]. *)
Definition provider_at {P} (s : Cal.pstate P) (w : World P) : Prop :=
  provider_state w = s.

(** The calls of the availability route of [server.js]. *)
Definition list_or_client (c : Cal.Call) : bool :=
  match c with
  | Cal.EventsList _ | Cal.GetClient => true
  | _ => false
  end.

(* ================================================================== *)
(** ** Start-up, liveness and readiness *)

(** What the start-up code and the health probes use beyond the event
    operations of the provider. *)
Module Host.

(** The resource of [calendarList.list]; [items] may be missing. *)
Record CalendarList : Type := { items : option (list string) }.

(** [parse_credentials key] is [JSON.parse(key)] followed by the read of
    [credentials.client_email] for the log line: [inl] is what either
    throws.  [GoogleAuth c] is [new google.auth.GoogleAuth({ credentials:
    c, scopes: [...] })], which may throw.  [calendarList_list] is
    [calendar.calendarList.list({ maxResults: 1 })].
    [length_of_undefined] is the TypeError the engine raises on
    [calendarList.data.items.length] when [items] is missing.  [code] and
    [errors] are the properties of those names of a thrown error. *)
Record t (P : Cal.Provider) : Type := {
  Credentials : Type;
  parse_credentials : string -> Cal.Error + Credentials;
  GoogleAuth : Credentials -> Cal.Error + unit;
  calendarList_list :
    Cal.pstate P -> (Cal.Error + Cal.Envelope CalendarList) * Cal.pstate P;
  length_of_undefined : Cal.Error;
  ErrorCode : Type;
  ErrorDetail : Type;
  code : Cal.Error -> option ErrorCode;
  errors : Cal.Error -> option (list ErrorDetail)
}.

Arguments Credentials {P} t.
Arguments parse_credentials {P} t key.
Arguments GoogleAuth {P} t c.
Arguments calendarList_list {P} t s.
Arguments length_of_undefined {P} t.
Arguments ErrorCode {P} t.
Arguments ErrorDetail {P} t.
Arguments code {P} t e.
Arguments errors {P} t e.

End Host.

(** The routes of [index.js] outside the four operations, and its
    start-up. *)
Module IndexAdmin.

Section Admin.

Variable P : Cal.Provider.
Variable H : Host.t P.

(** The [catch] of [initializeGoogleCalendar]: [authError = error; return
    false]. *)
Definition failed (st : Index.State) (error : Cal.Error) : bool * Index.State :=
  (false, {| Index.calendar := Index.calendar st;
             Index.authError := Some error |}).

(** [initializeGoogleCalendar()], run on the service-account key of the
    environment, from application state [st] and provider state [s]. *)
Definition initializeGoogleCalendar (key : option string) (st : Index.State)
    (s : Cal.pstate P) : bool * Index.State * Cal.pstate P :=
  if JS.falsy key
  then (failed st
          {| Cal.message :=
               "GOOGLE_SERVICE_ACCOUNT_KEY environment variable not set" |},
        s)
  else
    match Host.parse_credentials H (JS.tmpl key) with
    | inl error => (failed st error, s)
    | inr credentials =>
        match Host.GoogleAuth H credentials with
        | inl error => (failed st error, s)
        | inr _ =>
            match Cal.getClient P s with
            | (inl error, s1) => (failed st error, s1)
            | (inr _, s1) =>
                let st1 :=
                  {| Index.calendar := Some Index.GoogleCalendarV3;
                     Index.authError := Index.authError st |} in
                match Host.calendarList_list H s1 with
                | (inl error, s2) => (failed st1 error, s2)
                | (inr calendarList, s2) =>
                    match Host.items (Cal.data calendarList) with
                    | None => (failed st1 (Host.length_of_undefined H), s2)
                    | Some _ => (true, st1, s2)
                    end
                end
            end
        end
    end.

(** The body of [GET /]; the [endpoints] object is a constant. *)
Record Root : Type := {
  service : string;
  status : string;
  version : string;
  endpoints : list (string * string);
  authStatus : string
}.

Definition root (st : Index.State) : Root :=
  {| service := "Retell Google Calendar Agent";
     status :=
       match Index.calendar st with
       | Some _ => "ready"
       | None => "initializing"
       end;
     version := "2.0.0";
     endpoints :=
       [ ("health", "/health");
         ("checkAvailability", "POST /check-availability");
         ("createEvent", "POST /create-event");
         ("updateEvent", "POST /update-event");
         ("cancelEvent", "POST /cancel-event") ];
     authStatus :=
       match Index.calendar st with
       | Some _ => "connected"
       | None =>
           match Index.authError st with
           | Some error => Cal.message error
           | None => "connecting..."
           end
       end |}.

(** The [calendar] object of the health body. *)
Record CalendarHealth : Type := {
  connected : bool;
  error : option string;
  calendar_status : option string
}.

(** The body of [GET /health]; [timestamp] and [uptime] are the clock's. *)
Record Health (U : Type) : Type := {
  health_status : string;
  timestamp : string;
  uptime : U;
  calendar : CalendarHealth
}.

(** [GET /health]: the HTTP status, the body, and the provider after the
    probe. *)
Definition health {U} (now : string) (up : U) (st : Index.State)
    (s : Cal.pstate P) : Z * Health U * Cal.pstate P :=
  let connected := match Index.calendar st with Some _ => true | None => false end in
  let error := option_map Cal.message (Index.authError st) in
  let answer c :=
    (200, {| health_status := "healthy"; timestamp := now; uptime := up;
             calendar := c |}) in
  match Index.calendar st with
  | Some _ =>
      match Host.calendarList_list H s with
      | (inr _, s1) =>
          (answer {| connected := connected; error := error;
                     calendar_status := Some "operational" |}, s1)
      | (inl e, s1) =>
          (answer {| connected := connected;
                     error := Some (Cal.message e);
                     calendar_status := Some "error" |}, s1)
      end
  | None =>
      (answer {| connected := connected; error := error;
                 calendar_status := None |}, s)
  end.

End Admin.

Arguments health_status {U} h.
Arguments timestamp {U} h.
Arguments uptime {U} h.
Arguments calendar {U} h.

End IndexAdmin.

(** The routes of [server.js] outside the two operations, and its
    start-up block. *)
Module ServerAdmin.

Section Admin.

Variable P : Cal.Provider.
Variable H : Host.t P.

(** The start-up [try] block: [authError] is what it caught. *)
Definition initialize (key : option string) : Server.State :=
  if JS.falsy key
  then {| Server.authError :=
            Some {| Cal.message :=
                      "GOOGLE_SERVICE_ACCOUNT_KEY environment variable is missing" |} |}
  else
    match Host.parse_credentials H (JS.tmpl key) with
    | inl error => {| Server.authError := Some error |}
    | inr credentials =>
        match Host.GoogleAuth H credentials with
        | inl error => {| Server.authError := Some error |}
        | inr _ => {| Server.authError := None |}
        end
    end.

(** The body of [GET /]. *)
Record Root : Type := {
  service : string;
  status : string;
  authStatus : string;
  endpoints : list string
}.

Definition root (st : Server.State) : Root :=
  {| service := "Retell Google Calendar Agent";
     status :=
       match Server.authError st with
       | Some _ => "error"
       | None => "running"
       end;
     authStatus :=
       match Server.authError st with
       | Some error => Cal.message error
       | None => "connected"
       end;
     endpoints := ["/health"; "/check-availability"; "/create-event"] |}.

(** The three bodies of [GET /health]. *)
Inductive Health : Type :=
| AuthFailed (details : string)
| Healthy (message : string) (calendarsFound : nat)
| Unhealthy (error : string) (code : option (Host.ErrorCode H))
    (details : option (Host.ErrorDetail H) + string).

(** [GET /health]: the HTTP status, the body, and the provider after the
    probe. *)
Definition health (st : Server.State) (s : Cal.pstate P)
  : Z * Health * Cal.pstate P :=
  let unhealthy (error : Cal.Error) :=
    (503, Unhealthy (Cal.message error) (Host.code H error)
            match Host.errors H error with
            | Some es => inl (hd_error es)
            | None => inr "Unknown error"
            end) in
  match Server.authError st with
  | Some error => (503, AuthFailed (Cal.message error), s)
  | None =>
      match Cal.getClient P s with
      | (inl error, s1) => (unhealthy error, s1)
      | (inr _, s1) =>
          match Host.calendarList_list H s1 with
          | (inl error, s2) => (unhealthy error, s2)
          | (inr calendarList, s2) =>
              (200,
               Healthy "Server is running and Google Calendar is connected"
                 match Host.items (Cal.data calendarList) with
                 | Some l => List.length l
                 | None => 0%nat
                 end,
               s2)
          end
      end
  end.

End Admin.

End ServerAdmin.

(** ** Further vocabulary for the properties *)

(** The calendar a call is addressed to; the client acquisition has none. *)
Definition target (c : Cal.Call) : option string :=
  match c with
  | Cal.EventsList p => Some (Cal.list_calendarId p)
  | Cal.EventsInsert p => Some (Cal.insert_calendarId p)
  | Cal.EventsGet p => Some (Cal.get_calendarId p)
  | Cal.EventsUpdate p => Some (Cal.update_calendarId p)
  | Cal.EventsDelete p => Some (Cal.delete_calendarId p)
  | Cal.GetClient => None
  end.

(** [c] is addressed to calendar [id], or to none. *)
Definition addressed_to (id : string) (c : Cal.Call) : bool :=
  match target c with
  | Some id' => (id' =? id)%string
  | None => true
  end.

(** Whatever [m] returns satisfies [Q]. *)
Definition returns {P A} (Q : A -> Prop) (m : M P A) : Prop :=
  forall w,
    match m w with
    | (inr a, _) => Q a
    | (inl _, _) => True
    end.

(** The insert call of the create route of [server.js]. *)
Definition server_insert_call (a : Args) (tmin tmax : Z) : Cal.InsertParams :=
  {| Cal.insert_calendarId := "primary";
     Cal.insert_resource :=
       Server.new_event a (JSDate.iso_of_time tmin) (JSDate.iso_of_time tmax);
     Cal.sendUpdates := None |}.

(** The delete call of the cancel route of [index.js]. *)
Definition delete_call (env : Env) (a : Args) : Cal.DeleteParams :=
  {| Cal.delete_calendarId := Index.CALENDAR_ID env;
     Cal.delete_eventId := JS.tmpl (eventId a) |}.

Module Fixture2.

(** A host that accepts any key and whose calendar list has one entry. *)
Definition plain (P : Cal.Provider) : Host.t P :=
  {| Host.Credentials := string;
     Host.parse_credentials := fun key => inr key;
     Host.GoogleAuth := fun _ => inr tt;
     Host.calendarList_list := fun s =>
       (inr {| Cal.data := {| Host.items := Some ["primary"] |} |}, s);
     Host.length_of_undefined :=
       {| Cal.message := "Cannot read properties of undefined (reading 'length')" |};
     Host.ErrorCode := Z;
     Host.ErrorDetail := string;
     Host.code := fun _ => None;
     Host.errors := fun _ => None |}.

(** A host that accepts any key and whose calendar list is refused. *)
Definition forbidden (P : Cal.Provider) : Host.t P :=
  {| Host.Credentials := string;
     Host.parse_credentials := fun key => inr key;
     Host.GoogleAuth := fun _ => inr tt;
     Host.calendarList_list := fun s =>
       (inl {| Cal.message := "Insufficient Permission" |}, s);
     Host.length_of_undefined :=
       {| Cal.message := "Cannot read properties of undefined (reading 'length')" |};
     Host.ErrorCode := Z;
     Host.ErrorDetail := string;
     Host.code := fun _ => Some 403;
     Host.errors := fun _ => Some ["Insufficient Permission"] |}.

Definition cold : Index.State :=
  {| Index.calendar := None; Index.authError := None |}.

Definition junk_date : Args :=
  {| date := Some "next tuesday"; startTime := Some "09:00";
     endTime := Some "10:00"; title := Some "Dentist"; duration := None;
     description := None; attendeeEmail := None; eventId := None;
     newDate := None; newTime := None; newDuration := None |}.

Definition with_guest : Args :=
  {| date := Some "2024-06-01"; startTime := Some "09:00"; endTime := None;
     title := Some "Dentist"; duration := Some 30; description := None;
     attendeeEmail := Some "guest@example.com"; eventId := None;
     newDate := None; newTime := None; newDuration := None |}.

Definition startless_event : Cal.Event :=
  {| Cal.id := Some "xyz789"; Cal.htmlLink := None;
     Cal.summary := Some "Cancelled"; Cal.description := None;
     Cal.start := None; Cal.end_ := None; Cal.reminders := None;
     Cal.attendees := None |}.

(** A runtime in UTC that knows the zone America/Chicago and no other. *)
Definition one_zone : Runtime :=
  {| LocalTZA := fun _ => 0;
     parse_other := fun _ => None;
     toLocaleString := fun d tz =>
       if (tz =? "America/Chicago")%string
       then Some (match d with
                  | Some t => JSDate.iso_of_time t
                  | None => "Invalid Date"
                  end)
       else None;
     toLocaleTimeString := fun d =>
       match d with
       | Some t => JSDate.iso_of_time t
       | None => "Invalid Date"
       end |}.

Definition mars : Env :=
  {| TIMEZONE := Some "Mars/Phobos"; GOOGLE_CALENDAR_ID := None |}.

(** A calendar whose listing holds [stored_event] and an event without a
    start. *)
Definition with_startless : Cal.Provider :=
  Fixture.scripted (Some [Fixture.stored_event; startless_event])
    Fixture.stored_event.

End Fixture2.

(** The availability route of [index.js] cannot print [event]: it has no
    [start], or the runtime refuses the configured zone. *)
Definition unlistable (rt : Runtime) (env : Env) (event : Cal.Event) : Prop :=
  match Cal.start event with
  | None => True
  | Some start =>
      toLocaleString rt
        (DateCtor.of_value rt
           (if JS.truthy (Cal.dateTime start) then Cal.dateTime start
            else Cal.date start))
        (Index.timeZone env) = None
  end.

(* ================================================================== *)
(** * Properties *)

Arguments JSDate.iso_of_time : simpl never.

(** ** The date functions on known instants *)

Example MakeDay_epoch : JSDate.MakeDay 1970 1 1 = 0.
Proof. reflexivity. Qed.

Example MakeDay_leap_day : JSDate.MakeDay 2000 2 29 = 11016.
Proof. reflexivity. Qed.

Example civil_of_day_leap_day : JSDate.civil_of_day 11016 = (2000, 2, 29).
Proof. reflexivity. Qed.

Example civil_of_day_before_epoch : JSDate.civil_of_day (-1) = (1969, 12, 31).
Proof. reflexivity. Qed.

Example iso_of_time_epoch :
  JSDate.iso_of_time 0 = "1970-01-01T00:00:00.000Z".
Proof. reflexivity. Qed.

Example iso_of_time_2024 :
  JSDate.iso_of_time 1717232400123 = "2024-06-01T09:00:00.123Z".
Proof. reflexivity. Qed.

Example parse_local_in_utc :
  DateCtor.of_string (Fixture.fixed_zone 0) "2024-06-01T09:00:00"
  = Some 1717232400000.
Proof. reflexivity. Qed.

Example parse_local_five_hours_behind :
  DateCtor.of_string (Fixture.fixed_zone (-18000000)) "2024-06-01T09:00:00"
  = Some 1717250400000.
Proof. reflexivity. Qed.

Example parse_rejects_february_30 :
  JSDate.local_fields "2024-02-30T09:00:00" = None.
Proof. reflexivity. Qed.

Example toISOString_invalid : JSDate.toISOString None = None.
Proof. reflexivity. Qed.

(** ** The spec's examples, run on [index.js] *)

Example free_window_is_reported_free :
  fst (run (Index.check_availability Fixture.free (Fixture.fixed_zone 0)
              Fixture.default_env Fixture.ready
              {| args := ArgsObject Fixture.nine_to_ten |}) 0%nat)
  = json
      "Great news! Your calendar is completely free on 2024-06-01 between 09:00 and 10:00.".
Proof. vm_compute. reflexivity. Qed.

Example cancel_confirms :
  run (Index.cancel_event Fixture.busy Fixture.default_env Fixture.ready
         {| args := ArgsObject Fixture.cancel_abc123 |}) 0%nat
  = (json Index.msg_cancelled,
     Build_World Fixture.busy 1%nat
       [ ok (Cal.EventsDelete
               {| Cal.delete_calendarId := "colinyuan3333@gmail.com";
                  Cal.delete_eventId := "abc123" |}) ]).
Proof. vm_compute. reflexivity. Qed.

Example cancel_without_eventId :
  run (Index.cancel_event Fixture.busy Fixture.default_env Fixture.ready
         {| args := ArgsObject no_args |}) 0%nat
  = (json Index.msg_cancel_guidance, Build_World Fixture.busy 0%nat []).
Proof. vm_compute. reflexivity. Qed.

Lemma truthy_not_falsy (x : option string) :
  JS.truthy x = true -> JS.falsy x = false.
Proof. unfold JS.truthy. now destruct (JS.falsy x). Qed.

Lemma falsy_not_truthy (x : option string) :
  JS.falsy x = true -> JS.truthy x = false.
Proof. unfold JS.truthy. now intros ->. Qed.

Lemma TimeClip_in_range (t : Z) :
  Z.abs t <= JSDate.maxTime -> JSDate.TimeClip t = Some t.
Proof.
  intros H. unfold JSDate.TimeClip.
  now destruct (Z.leb_spec (Z.abs t) JSDate.maxTime); [|lia].
Qed.

Lemma bind_prop_some {P A B} (x : A) (k : A -> M P B) :
  bind (prop (Some x)) k = k x.
Proof. reflexivity. Qed.

(** A route that finds a non-empty property in [args] has read it off an
    [args] that is not [null]. *)
Lemma args_read (req : Request) (f : Args -> option string) :
  f no_args = None ->
  JS.truthy (f (Index.args_of req)) = true ->
  Index.args_default req = Some (Index.args_of req).
Proof.
  unfold Index.args_of, Index.args_default.
  destruct (args req); intros Hf H; try reflexivity.
  rewrite Hf in H. discriminate H.
Qed.

Lemma args_default_not_null (req : Request) :
  args req <> ArgsNull ->
  Index.args_default req = Some (Index.args_of req).
Proof.
  unfold Index.args_of, Index.args_default.
  destruct (args req); intros H; try reflexivity. congruence.
Qed.

(** On [args: null] every body of [index.js] throws at once. *)
Lemma args_default_null (req : Request) :
  args req = ArgsNull -> Index.args_default req = None.
Proof. unfold Index.args_default. now intros ->. Qed.

(** Splits on what [const { args = {} } = req.body] leaves in [args]:
    first a value whose properties are [a], then [null]. *)
Ltac read_args req a :=
  let a' := fresh "a'" in
  let Hargs := fresh "Hargs" in
  let Ha := fresh "Ha" in
  destruct (Index.args_default req) as [a'|] eqn:Hargs;
  [ assert (Ha : a' = a) by (unfold a, Index.args_of; now rewrite Hargs);
    subst a'; rewrite ?bind_prop_some
  | ].

(** Unfolds the monad's operations on the world at hand. *)
Ltac run_monad :=
  cbv [bind ret throw ranged prop invoke send events_list events_insert
       events_get events_update events_delete getClient provider_state log
       app].

Section IndexCreate.

Variable P : Cal.Provider.
Variable rt : Runtime.
Variable env : Env.
Variable st : Index.State.

(** The create route of [index.js] on a request that passes validation and
    whose window [tmin, tmax) is well defined: the route is its conflict
    query followed, when the query finds nothing, by the insert. *)
Lemma create_event_window (req : Request) (s : Cal.pstate P) (t : Z) :
  let a := Index.args_of req in
  let tmax := t + Index.duration_of a * 60000 in
  Index.calendar st <> None ->
  JS.truthy (title a) = true ->
  JS.truthy (date a) = true ->
  JS.truthy (startTime a) = true ->
  Index.local_date rt (date a) (startTime a) = Some t ->
  Z.abs tmax <= JSDate.maxTime ->
  run (Index.create_event P rt env st req) s =
  match Cal.events_list P (conflict_query env t tmax) s with
  | (inl e, s1) =>
      (json Index.msg_create_apology,
       {| provider_state := s1;
          log := [ko (Cal.EventsList (conflict_query env t tmax)) e] |})
  | (inr conflicts, s1) =>
      match items_or_empty conflicts with
      | _ :: _ =>
          (json Index.msg_conflict,
           {| provider_state := s1;
              log := [ok (Cal.EventsList (conflict_query env t tmax))] |})
      | [] =>
          match Cal.events_insert P (insert_call env a t tmax) s1 with
          | (inl e, s2) =>
              (json Index.msg_create_apology,
               {| provider_state := s2;
                  log := [ok (Cal.EventsList (conflict_query env t tmax));
                          ko (Cal.EventsInsert (insert_call env a t tmax)) e] |})
          | (inr response, s2) =>
              ({| status := 200;
                  result :=
                    Index.msg_created (JS.tmpl (title a)) (JS.tmpl (date a))
                      (toLocaleTimeString rt (Some t)) (Index.duration_of a)
                      (attendeeEmail a);
                  res_eventId := Cal.id (Cal.data response);
                  res_eventLink := Cal.htmlLink (Cal.data response) |},
               {| provider_state := s2;
                  log := [ok (Cal.EventsList (conflict_query env t tmax));
                          ok (Cal.EventsInsert (insert_call env a t tmax))] |})
          end
      end
  end.
Proof.
  intros a tmax Hcal Ht Hd Hs Hstart Hend.
  unfold run, Index.create_event, Index.requireCalendar.
  destruct (Index.calendar st) as [h|]; [clear Hcal | congruence].
  unfold try_catch, Index.create_event_body.
  rewrite (args_read req title eq_refl Ht), bind_prop_some. fold a.
  rewrite (truthy_not_falsy _ Ht), (truthy_not_falsy _ Hd),
    (truthy_not_falsy _ Hs). cbn [orb].
  rewrite Hstart. cbn [JSDate.getTime option_map DateCtor.of_number].
  fold tmax. rewrite (TimeClip_in_range _ Hend).
  cbn [JSDate.toISOString option_map].
  run_monad.
  fold (conflict_query env t tmax).
  destruct (Cal.events_list P (conflict_query env t tmax) s)
    as [[e|conflicts] s1]; [reflexivity|].
  unfold items_or_empty.
  fold (insert_call env a t tmax).
  destruct (Cal.items (Cal.data conflicts)) as [[|ev evs]|];
    cbn [List.length Nat.ltb Nat.leb]; try reflexivity;
    destruct (Cal.events_insert P (insert_call env a t tmax) s1)
      as [[e|r] s2]; reflexivity.
Qed.

End IndexCreate.

Section IndexAvailability.

Variable P : Cal.Provider.
Variable rt : Runtime.
Variable env : Env.
Variable st : Index.State.

(** Formatting an event touches neither the provider nor the log. *)
Lemma eventSummary_frame (event : Cal.Event) (w : World P) :
  snd (Index.eventSummary P rt env event w) = w.
Proof.
  unfold Index.eventSummary. run_monad.
  destruct (Cal.start event) as [start|]; [|reflexivity].
  now destruct (toLocaleString rt _ _).
Qed.

Lemma mapM_eventSummary_frame (events : list Cal.Event) (w : World P) :
  snd (mapM (Index.eventSummary P rt env) events w) = w.
Proof.
  induction events as [|event events IH]; [reflexivity|].
  cbn [mapM]. unfold bind at 1.
  pose proof (eventSummary_frame event w) as Hev.
  destruct (Index.eventSummary P rt env event w) as [[e|line] w1];
    cbn [snd] in Hev; subst w1; [reflexivity|].
  unfold bind at 1.
  destruct (mapM (Index.eventSummary P rt env) events w) as [[e|lines] w2];
    cbn [snd] in IH; subst w2; reflexivity.
Qed.

Lemma eventSummary_listed (event : Cal.Event) (line : string) (w : World P) :
  listed rt env event line ->
  Index.eventSummary P rt env event w = (inr line, w).
Proof.
  intros (start & formattedTime & Hstart & Hfmt & ->).
  unfold Index.eventSummary. rewrite Hstart. run_monad.
  now rewrite Hfmt.
Qed.

Lemma mapM_eventSummary_listed (events : list Cal.Event) (lines : list string)
    (w : World P) :
  Forall2 (listed rt env) events lines ->
  mapM (Index.eventSummary P rt env) events w = (inr lines, w).
Proof.
  induction 1 as [|event line events lines Hline _ IH]; [reflexivity|].
  cbn [mapM]. unfold bind at 1.
  rewrite (eventSummary_listed _ _ _ Hline).
  unfold bind at 1. now rewrite IH.
Qed.

(** The availability route of [index.js] on a request that passes
    validation and whose two bounds are valid dates. *)
Lemma check_availability_window (req : Request) (s : Cal.pstate P)
    (tmin tmax : Z) :
  let a := Index.args_of req in
  let q := availability_query env tmin tmax in
  Index.calendar st <> None ->
  JS.truthy (date a) = true ->
  JS.truthy (startTime a) = true ->
  JS.truthy (endTime a) = true ->
  Index.local_date rt (date a) (startTime a) = Some tmin ->
  Index.local_date rt (date a) (endTime a) = Some tmax ->
  run (Index.check_availability P rt env st req) s =
  match Cal.events_list P q s with
  | (inl e, s1) =>
      (json Index.msg_check_apology,
       {| provider_state := s1; log := [ko (Cal.EventsList q) e] |})
  | (inr response, s1) =>
      let w1 := {| provider_state := s1; log := [ok (Cal.EventsList q)] |} in
      match items_or_empty response with
      | [] =>
          (json (Index.msg_free (JS.tmpl (date a)) (JS.tmpl (startTime a))
                                (JS.tmpl (endTime a))), w1)
      | events =>
          match fst (mapM (Index.eventSummary P rt env) events w1) with
          | inr lines =>
              (json (Index.msg_busy (JS.tmpl (date a)) (List.length events)
                                    (JS.join ", " lines)), w1)
          | inl _ => (json Index.msg_check_apology, w1)
          end
      end
  end.
Proof.
  intros a q Hcal Hd Hs He Hmin Hmax.
  unfold run, Index.check_availability, Index.requireCalendar.
  destruct (Index.calendar st) as [h|]; [clear Hcal | congruence].
  unfold try_catch, Index.check_availability_body.
  rewrite (args_read req date eq_refl Hd), bind_prop_some. fold a.
  rewrite (truthy_not_falsy _ Hd), (truthy_not_falsy _ Hs),
    (truthy_not_falsy _ He). cbn [orb].
  rewrite Hmin, Hmax. cbn [JSDate.toISOString option_map].
  unfold bind at 1. unfold ranged at 1. unfold ret at 1.
  unfold bind at 1. unfold ranged at 1. unfold ret at 1.
  unfold bind at 1. unfold events_list, invoke. cbn [provider_state log app].
  fold (Index.timeZone env). fold (availability_query env tmin tmax). fold q.
  destruct (Cal.events_list P q s) as [[e|response] s1]; [reflexivity|].
  unfold items_or_empty. cbv zeta.
  destruct (Cal.items (Cal.data response)) as [[|event events]|];
    try reflexivity.
  cbn [List.length Nat.eqb]. unfold bind at 1.
  set (w1 := {| provider_state := s1; log := [ok (Cal.EventsList q)] |}).
  change {| provider_state := s1;
            log := [ {| call := Cal.EventsList q; failure := None |} ] |}
    with w1.
  pose proof (mapM_eventSummary_frame (event :: events) w1) as Hframe.
  destruct (mapM (Index.eventSummary P rt env) (event :: events) w1)
    as [[e|lines] w2]; cbn [snd fst] in *; subst w2; reflexivity.
Qed.

(** Every call the availability route of [index.js] issues: at most one
    listing, whose bounds are the two dates the runtime builds from the
    request. *)
Lemma check_availability_calls (req : Request) (s : Cal.pstate P) :
  let a := Index.args_of req in
  map call (log (snd (run (Index.check_availability P rt env st req) s))) =
  match Index.calendar st with
  | None => []
  | Some _ =>
      if JS.falsy (date a) || JS.falsy (startTime a) || JS.falsy (endTime a)
      then []
      else
        match Index.local_date rt (date a) (startTime a),
              Index.local_date rt (date a) (endTime a) with
        | Some tmin, Some tmax =>
            [Cal.EventsList (availability_query env tmin tmax)]
        | _, _ => []
        end
  end.
Proof.
  intros a.
  destruct (Index.calendar st) as [h|] eqn:Hcal;
    [|unfold run, Index.check_availability, Index.requireCalendar;
      now rewrite Hcal].
  assert (Hready : Index.calendar st <> None) by congruence.
  destruct (Index.args_default req) as [a'|] eqn:Hargs.
  2: { unfold run, Index.check_availability, Index.requireCalendar,
         try_catch, Index.check_availability_body.
       rewrite Hcal, Hargs. unfold a, Index.args_of. now rewrite Hargs. }
  assert (a' = a) by (unfold a, Index.args_of; now rewrite Hargs).
  subst a'.
  destruct (JS.falsy (date a)) eqn:Hd;
    [|destruct (JS.falsy (startTime a)) eqn:Hs;
      [|destruct (JS.falsy (endTime a)) eqn:He]]; cbn [orb];
    try (unfold run, Index.check_availability, Index.requireCalendar,
           try_catch, Index.check_availability_body;
         rewrite Hcal, Hargs, bind_prop_some; fold a;
         rewrite ?Hd, ?Hs, ?He; reflexivity).
  destruct (Index.local_date rt (date a) (startTime a)) as [tmin|] eqn:Hmin;
    [destruct (Index.local_date rt (date a) (endTime a)) as [tmax|] eqn:Hmax|].
  - rewrite (check_availability_window req s tmin tmax Hready); trivial;
      try (unfold JS.truthy; fold a; now rewrite ?Hd, ?Hs, ?He).
    destruct (Cal.events_list P _ s) as [[e|response] s1]; [reflexivity|].
    cbv zeta. destruct (items_or_empty response); [reflexivity|].
    now destruct (fst (mapM _ _ _)).
  - unfold run, Index.check_availability, Index.requireCalendar,
      try_catch, Index.check_availability_body.
    rewrite Hcal, Hargs, bind_prop_some. fold a.
    rewrite Hd, Hs, He, Hmin, Hmax. reflexivity.
  - unfold run, Index.check_availability, Index.requireCalendar,
      try_catch, Index.check_availability_body.
    rewrite Hcal, Hargs, bind_prop_some. fold a.
    rewrite Hd, Hs, He, Hmin. reflexivity.
Qed.

End IndexAvailability.

Section ServerAvailability.

Variable P : Cal.Provider.
Variable rt : Runtime.
Variable sst : Server.State.

Lemma server_msg_busy_not_free (n : nat) (d s e d' s' e' : string) :
  Server.msg_busy n d s e <> Server.msg_free d' s' e'.
Proof. unfold Server.msg_busy, Server.msg_free. cbn. discriminate. Qed.

(** The availability route of [server.js], once the client is acquired
    and the provider answers the listing: free exactly when the list is
    empty, and otherwise the number of events in it. *)
Lemma server_free_exactly_when_list_empty (req : Request) (a : Args)
    (s s1 s2 : Cal.pstate P) (tmin tmax : Z)
    (response : Cal.Envelope Cal.Events) :
  let r := result (fst (run (Server.check_availability P rt sst req) s)) in
  let events := items_or_empty response in
  Server.authError sst = None ->
  args req = ArgsObject a ->
  Cal.getClient P s = (inr tt, s1) ->
  Server.local_date rt (date a) (startTime a) = Some tmin ->
  Server.local_date rt (date a) (endTime a) = Some tmax ->
  Cal.events_list P (server_query tmin tmax) s1 = (inr response, s2) ->
  (r = Server.msg_free (JS.tmpl (date a)) (JS.tmpl (startTime a))
                       (JS.tmpl (endTime a))
   <-> events = [])
  /\ (events <> [] ->
      r = Server.msg_busy (List.length events) (JS.tmpl (date a))
            (JS.tmpl (startTime a)) (JS.tmpl (endTime a))).
Proof.
  intros r events Hauth Hargs Hclient Hmin Hmax Hlist. subst r events.
  unfold run, Server.check_availability, Server.requireAuth, try_catch,
    Server.check_availability_body, items_or_empty, Server.args_of.
  rewrite Hauth, Hargs. run_monad. rewrite Hclient, Hmin, Hmax.
  cbn [JSDate.toISOString option_map].
  fold (server_query tmin tmax). rewrite Hlist.
  destruct (Cal.items (Cal.data response)) as [[|event rest]|];
    cbn [List.length Nat.eqb fst result json].
  - split; [now split | congruence].
  - split; [|reflexivity]. split; [intros H | discriminate].
    now apply server_msg_busy_not_free in H.
  - split; [now split | congruence].
Qed.

End ServerAvailability.

Section IndexUpdate.

Variable P : Cal.Provider.
Variable rt : Runtime.
Variable env : Env.
Variable st : Index.State.

(** The update route of [index.js] on a request that passes validation:
    after the lookup, a new date or a new time makes the route throw
    before it writes, and otherwise the stored resource is written back
    as it was read. *)
Lemma update_event_outcome (req : Request) (s : Cal.pstate P) :
  let a := Index.args_of req in
  let g := Cal.EventsGet (get_query env a) in
  Index.calendar st <> None ->
  JS.truthy (eventId a) = true ->
  JS.truthy (newDate a) || JS.truthy (newTime a)
    || JS.truthy_num (newDuration a) = true ->
  run (Index.update_event P rt env st req) s =
  match Cal.events_get P (get_query env a) s with
  | (inl e, s1) =>
      (json Index.msg_update_apology,
       {| provider_state := s1; log := [ko g e] |})
  | (inr existingEvent, s1) =>
      if JS.truthy (newDate a) || JS.truthy (newTime a)
      then (json Index.msg_update_apology,
            {| provider_state := s1; log := [ok g] |})
      else
        let u := update_call env a (Cal.data existingEvent) in
        match Cal.events_update P u s1 with
        | (inl e, s2) =>
            (json Index.msg_update_apology,
             {| provider_state := s2;
                log := [ok g; ko (Cal.EventsUpdate u) e] |})
        | (inr response, s2) =>
            ({| status := 200;
                result := Index.msg_updated (newDate a) (newTime a);
                res_eventId := Cal.id (Cal.data response);
                res_eventLink := None |},
             {| provider_state := s2;
                log := [ok g; ok (Cal.EventsUpdate u)] |})
        end
  end.
Proof.
  intros a g Hcal Hid Hchange.
  unfold run, Index.update_event, Index.requireCalendar.
  destruct (Index.calendar st) as [h|]; [clear Hcal | congruence].
  unfold try_catch, Index.update_event_body.
  rewrite (args_read req eventId eq_refl Hid), bind_prop_some. fold a.
  rewrite (truthy_not_falsy _ Hid). cbn [orb].
  replace (JS.falsy (newDate a) && JS.falsy (newTime a)
           && JS.falsy_num (newDuration a)) with false
    by (revert Hchange; unfold JS.truthy, JS.truthy_num;
        destruct (JS.falsy (newDate a)), (JS.falsy (newTime a)),
          (JS.falsy_num (newDuration a)); cbn; congruence).
  unfold bind at 1. unfold events_get, invoke. cbn [provider_state log app].
  fold (get_query env a). fold g.
  destruct (Cal.events_get P (get_query env a) s) as [[e|existingEvent] s1];
    [reflexivity|].
  unfold Index.envelope_dateTime.
  fold (update_call env a (Cal.data existingEvent)). cbv zeta.
  destruct (JS.truthy (newDate a)), (JS.truthy (newTime a)); cbn [orb];
    run_monad; try reflexivity.
  - destruct (JS.truthy_num (newDuration a)); [|reflexivity].
    destruct (newDuration a); [|reflexivity].
    now destruct (JSDate.toISOString _).
  - now destruct (Cal.events_update P _ s1) as [[e|r] s2].
Qed.

(** The cancel route of [index.js] on a request that names an event. *)
Lemma cancel_event_outcome (req : Request) (s : Cal.pstate P) :
  let a := Index.args_of req in
  let d := {| Cal.delete_calendarId := Index.CALENDAR_ID env;
              Cal.delete_eventId := JS.tmpl (eventId a) |} in
  Index.calendar st <> None ->
  JS.truthy (eventId a) = true ->
  run (Index.cancel_event P env st req) s =
  match Cal.events_delete P d s with
  | (inl e, s1) =>
      (json Index.msg_cancel_apology,
       {| provider_state := s1; log := [ko (Cal.EventsDelete d) e] |})
  | (inr _, s1) =>
      (json Index.msg_cancelled,
       {| provider_state := s1; log := [ok (Cal.EventsDelete d)] |})
  end.
Proof.
  intros a d Hcal Hid.
  unfold run, Index.cancel_event, Index.requireCalendar.
  destruct (Index.calendar st) as [h|]; [clear Hcal | congruence].
  unfold try_catch, Index.cancel_event_body.
  rewrite (args_read req eventId eq_refl Hid), bind_prop_some. fold a.
  rewrite (truthy_not_falsy _ Hid). run_monad. fold d.
  now destruct (Cal.events_delete P d s) as [[e|r] s1].
Qed.

End IndexUpdate.

(* ------------------------------------------------------------------ *)
(** ** Rules of the program logic *)

Section Logic.

Variable P : Cal.Provider.
Variables I B : World P -> Prop.
Hypothesis thrown_from_I : forall w, I w -> B w.

Lemma safe_ret {A} (a : A) : safe I B (ret (P:=P) a).
Proof. intros w Hw. exact Hw. Qed.

Lemma safe_throw {A} (e : Exn) : safe I B (throw (P:=P) (A:=A) e).
Proof. intros w Hw. cbn. auto. Qed.

Lemma safe_bind {A C} (m : M P A) (k : A -> M P C) :
  safe I B m -> (forall a, safe I B (k a)) -> safe I B (bind m k).
Proof.
  intros Hm Hk w Hw. unfold bind. specialize (Hm w Hw).
  destruct (m w) as [[e|a] w1]; [exact Hm|]. exact (Hk a w1 Hm).
Qed.

Lemma safe_prop {A} (o : option A) : safe I B (prop (P:=P) o).
Proof. destruct o; [apply safe_ret | apply safe_throw]. Qed.

Lemma safe_ranged {A} (o : option A) : safe I B (ranged (P:=P) o).
Proof. destruct o; [apply safe_ret | apply safe_throw]. Qed.

Lemma safe_mapM {A C} (f : A -> M P C) (xs : list A) :
  (forall x, safe I B (f x)) -> safe I B (mapM f xs).
Proof.
  intros Hf. induction xs as [|x xs IH]; cbn [mapM].
  - apply safe_ret.
  - apply safe_bind; [apply Hf|]. intros y.
    apply safe_bind; [exact IH|]. intros ys. apply safe_ret.
Qed.

Lemma safe_invoke {A} (c : Cal.Call)
    (op : Cal.pstate P -> (Cal.Error + A) * Cal.pstate P) :
  (forall w, I w ->
     I {| provider_state := snd (op (provider_state w));
          log := log w ++ [ok c] |}) ->
  (forall w e, I w ->
     B {| provider_state := snd (op (provider_state w));
          log := log w ++ [ko c e] |}) ->
  safe I B (invoke c op).
Proof.
  intros Hok Hko w Hw. unfold invoke.
  specialize (Hok w Hw). pose proof (fun e => Hko w e Hw) as Hko'.
  destruct (op (provider_state w)) as [[e|a] s1]; cbn [snd] in *.
  - apply Hko'.
  - exact Hok.
Qed.

End Logic.

(** Breaks a handler body down to its provider calls, which [call_rule]
    is to justify. *)
Ltac safe_body call_rule :=
  repeat first
    [ apply safe_ret
    | apply safe_throw; solve [auto]
    | apply safe_prop; solve [auto]
    | apply safe_ranged; solve [auto]
    | apply safe_bind; [|intro]
    | apply safe_mapM; intro
    | call_rule
    | match goal with
      | |- safe _ _ (if ?b then _ else _) => destruct b
      | |- safe _ _ (match ?x with _ => _ end) => destruct x
      end ].

Section Answered.

Variable P : Cal.Provider.

Lemma all_answered_invoke {A} (c : Cal.Call)
    (op : Cal.pstate P -> (Cal.Error + A) * Cal.pstate P) :
  safe all_answered (fun _ => True) (invoke c op).
Proof.
  apply safe_invoke; [|trivial].
  intros w Hw. unfold all_answered in *. cbn [log].
  apply Forall_app. split; [exact Hw|]. now constructor.
Qed.

(** Under a handler's [try], a call the provider rejected means the
    [catch] answered. *)
Lemma try_catch_rejected (m : M P Response) (apology : Response)
    (s : Cal.pstate P) (c : Cal.Call) (err : Cal.Error) :
  safe all_answered (fun _ => True) m ->
  In (ko c err) (log (snd (run (try_catch m (fun _ => apology)) s))) ->
  fst (run (try_catch m (fun _ => apology)) s) = apology.
Proof.
  intros Hm. unfold run, try_catch.
  specialize (Hm {| provider_state := s; log := [] |}).
  destruct (m _) as [[e|r] w1]; cbn [fst snd]; [reflexivity|].
  intros Hin. assert (Hall : all_answered w1) by (apply Hm; constructor).
  unfold all_answered in Hall. rewrite Forall_forall in Hall.
  specialize (Hall _ Hin). discriminate Hall.
Qed.

End Answered.

Ltac answered_call :=
  first [ unfold events_list | unfold events_insert | unfold events_get
        | unfold events_update | unfold events_delete | unfold getClient ];
  apply all_answered_invoke.

Section IndexAnswered.

Variable P : Cal.Provider.
Variable rt : Runtime.
Variable env : Env.

Lemma check_availability_body_answered (req : Request) :
  safe all_answered (fun _ => True) (Index.check_availability_body P rt env req).
Proof.
  unfold Index.check_availability_body, Index.eventSummary. cbv zeta.
  safe_body answered_call.
Qed.

Lemma create_event_body_answered (req : Request) :
  safe all_answered (fun _ => True) (Index.create_event_body P rt env req).
Proof.
  unfold Index.create_event_body. cbv zeta. safe_body answered_call.
Qed.

Lemma update_event_body_answered (req : Request) :
  safe all_answered (fun _ => True) (Index.update_event_body P rt env req).
Proof.
  unfold Index.update_event_body, Index.envelope_dateTime. cbv zeta.
  safe_body answered_call.
Qed.

Lemma cancel_event_body_answered (req : Request) :
  safe all_answered (fun _ => True) (Index.cancel_event_body P env req).
Proof.
  unfold Index.cancel_event_body. cbv zeta. safe_body answered_call.
Qed.

End IndexAnswered.

(* ================================================================== *)
(** * The claims *)

(** ** C1: the creation conflict rule *)

(** C1, as amended.  In [index.js], for every create-event request with a
    truthy title, date and startTime whose start is a valid date and whose
    end [start + duration * 60000] is a representable instant, served while
    the calendar handle is initialized: the first provider call lists the
    events of the window from start to end; if the provider answers with
    one or more events the route answers the conflict message and issues no
    insert; an insert is issued only when the listing came back empty. *)
Theorem C1_index_create_conflict_rule
    (P : Cal.Provider) (rt : Runtime) (env : Env) (st : Index.State)
    (req : Request) (s : Cal.pstate P) (t : Z) :
  let a := Index.args_of req in
  let tmax := t + Index.duration_of a * 60000 in
  Index.calendar st <> None ->
  JS.truthy (title a) = true ->
  JS.truthy (date a) = true ->
  JS.truthy (startTime a) = true ->
  Index.local_date rt (date a) (startTime a) = Some t ->
  Z.abs tmax <= JSDate.maxTime ->
  conflict_rule (Index.create_event P rt env st req)
                (conflict_query env t tmax) Index.msg_conflict s.
Proof.
  intros a tmax Hcal Ht Hd Hs Hstart Hend. unfold conflict_rule. cbv zeta.
  rewrite (create_event_window P rt env st req s t Hcal Ht Hd Hs Hstart Hend).
  fold a. fold tmax.
  destruct (Cal.events_list P (conflict_query env t tmax) s)
    as [[e|conflicts] s1].
  - cbn [fst snd log]. split; [now exists (Some e), []|]. split.
    + intros c s2 [=].
    + intros x [<-|[]]. discriminate.
  - destruct (items_or_empty conflicts) as [|ev evs] eqn:Hitems.
    + destruct (Cal.events_insert P _ s1) as [[e|r] s2]; cbn [fst snd log];
        (split; [now eexists None, [_]|]);
        (split; [intros c s3 [= <- <-]; rewrite Hitems; congruence|]);
        intros x _ _; exists conflicts, s1; now split.
    + cbn [fst snd log]. split; [now exists None, []|]. split.
      * intros c s3 [= <- <-] _. now split.
      * intros x [<-|[]]. discriminate.
Qed.

Lemma C1_index_create_conflict_rule_witness :
  conflict_rule
    (Index.create_event Fixture.busy (Fixture.fixed_zone 0)
       Fixture.default_env Fixture.ready {| args := ArgsObject Fixture.dentist |})
    (conflict_query Fixture.default_env 1717232400000
       (1717232400000 + 60 * 60000))
    Index.msg_conflict 0%nat.
Proof.
  apply (C1_index_create_conflict_rule Fixture.busy (Fixture.fixed_zone 0)
           Fixture.default_env Fixture.ready
           {| args := ArgsObject Fixture.dentist |} 0%nat 1717232400000).
  - discriminate.
  - reflexivity.
  - reflexivity.
  - reflexivity.
  - vm_compute. reflexivity.
  - vm_compute. discriminate.
Defined.

(** C1 as stated fails on [server.js]: its create route serves the
    spec's Dentist request, on a calendar that already holds an event from
    09:00 to 10:00, by acquiring the client and inserting.  It issues no
    listing, so the rule fails whichever window and refusal text one looks
    for. *)
Lemma C1_server_create_never_lists :
  let out :=
    run (Server.create_event Fixture.busy (Fixture.fixed_zone 0)
           Fixture.server_ok {| args := ArgsObject Fixture.dentist |}) 0%nat in
  existsb (fun e => Cal.is_list (call e)) (log (snd out)) = false
  /\ existsb (fun e => Cal.is_insert (call e)) (log (snd out)) = true
  /\ ~ exists window refusal,
        conflict_rule
          (Server.create_event Fixture.busy (Fixture.fixed_zone 0)
             Fixture.server_ok {| args := ArgsObject Fixture.dentist |})
          window refusal 0%nat.
Proof.
  cbv zeta. split; [vm_compute; reflexivity|].
  split; [vm_compute; reflexivity|].
  intros (window & refusal & (f & rest & Hfirst) & _).
  vm_compute in Hfirst. discriminate Hfirst.
Qed.

(** ** C2: presence validation *)

(** C2, as amended.  In [index.js], with the calendar handle initialized:
    every request whose [args] is not [null] and that lacks a required
    field (the field is absent or empty: date, startTime or endTime for
    check-availability; title, date or startTime for create-event; eventId,
    or all of newDate, newTime and newDuration, for update-event; eventId
    for cancel-event) is answered with that route's fixed guidance text and
    no provider call is issued; and a request whose [args] is [null], which
    has none of the fields, is answered with that route's fixed apology
    text, again without any provider call. *)
Theorem C2_index_missing_field_rejected
    (P : Cal.Provider) (rt : Runtime) (env : Env) (st : Index.State)
    (req : Request) (s : Cal.pstate P) :
  let a := Index.args_of req in
  let idle := {| provider_state := s; log := [] |} in
  Index.calendar st <> None ->
  (args req <> ArgsNull ->
   (JS.falsy (date a) || JS.falsy (startTime a) || JS.falsy (endTime a) = true ->
    rejects_locally (Index.check_availability P rt env st req)
      "I need a date, start time, and end time to check availability. Could you please provide those details?"
      s)
   /\ (JS.falsy (title a) || JS.falsy (date a) || JS.falsy (startTime a) = true ->
       rejects_locally (Index.create_event P rt env st req)
         "To create an appointment, I need a title, date, and start time. What would you like to schedule?"
         s)
   /\ (JS.falsy (eventId a)
       || (JS.falsy (newDate a) && JS.falsy (newTime a)
           && JS.falsy_num (newDuration a)) = true ->
       rejects_locally (Index.update_event P rt env st req)
         "To update an appointment, I need the event ID and at least one thing to change (date, time, or duration)."
         s)
   /\ (JS.falsy (eventId a) = true ->
       rejects_locally (Index.cancel_event P env st req)
         "To cancel an appointment, I need the event ID. Which appointment would you like to cancel?"
         s))
  /\ (args req = ArgsNull ->
      run (Index.check_availability P rt env st req) s
        = (json "I encountered an issue checking the calendar. Please try again.",
           idle)
      /\ run (Index.create_event P rt env st req) s
         = (json "I couldn't create the appointment. Please check the details and try again.",
            idle)
      /\ run (Index.update_event P rt env st req) s
         = (json "I couldn't update the appointment. Please make sure you have the correct event ID.",
            idle)
      /\ run (Index.cancel_event P env st req) s
         = (json "I couldn't cancel the appointment. Please verify the appointment details.",
            idle)).
Proof.
  intros a idle Hcal.
  unfold rejects_locally, run, Index.check_availability, Index.create_event,
    Index.update_event, Index.cancel_event, Index.requireCalendar.
  destruct (Index.calendar st) as [h|]; [clear Hcal | congruence].
  unfold try_catch, Index.check_availability_body, Index.create_event_body,
    Index.update_event_body, Index.cancel_event_body.
  split.
  - intros Hargs. rewrite (args_default_not_null req Hargs).
    rewrite !bind_prop_some. fold a. cbv zeta.
    repeat split; intros ->; reflexivity.
  - intros Hargs. rewrite (args_default_null req Hargs). repeat split.
Qed.

Lemma C2_index_missing_field_rejected_witness :
  rejects_locally
    (Index.cancel_event Fixture.busy Fixture.default_env Fixture.ready
       {| args := ArgsUndefined |})
    "To cancel an appointment, I need the event ID. Which appointment would you like to cancel?"
    0%nat.
Proof.
  refine (proj2 (proj2 (proj2 (proj1
    (C2_index_missing_field_rejected Fixture.busy (Fixture.fixed_zone 0)
       Fixture.default_env Fixture.ready {| args := ArgsUndefined |}
       0%nat _) _))) _).
  - discriminate.
  - discriminate.
  - reflexivity.
Defined.

(** C2 as stated fails twice.  On [server.js]: its create route validates
    nothing, and a request without a title still reaches the provider with
    an insert.  On [index.js]: a cancel request whose [args] is [null] has
    no eventId, and is answered with the apology, not with the guidance. *)
Lemma C2_missing_field_not_always_rejected :
  let out :=
    run (Server.create_event Fixture.free (Fixture.fixed_zone 0)
           Fixture.server_ok {| args := ArgsObject Fixture.untitled |})
        0%nat in
  let null :=
    Index.cancel_event Fixture.free Fixture.default_env Fixture.ready
      {| args := ArgsNull |} in
  (title Fixture.untitled = None
   /\ existsb (fun e => Cal.is_insert (call e)) (log (snd out)) = true
   /\ ~ exists guidance,
         rejects_locally
           (Server.create_event Fixture.free (Fixture.fixed_zone 0)
              Fixture.server_ok {| args := ArgsObject Fixture.untitled |})
           guidance 0%nat)
  /\ (result (fst (run null 0%nat))
      = "I couldn't cancel the appointment. Please verify the appointment details."
      /\ ~ rejects_locally null
             "To cancel an appointment, I need the event ID. Which appointment would you like to cancel?"
             0%nat).
Proof.
  cbv zeta. split; [split; [reflexivity|split]|split].
  - vm_compute. reflexivity.
  - intros (guidance & H). unfold rejects_locally in H.
    apply (f_equal (fun o => List.length (log (snd o)))) in H.
    vm_compute in H. discriminate H.
  - reflexivity.
  - unfold rejects_locally. intros H.
    apply (f_equal (fun o => result (fst o))) in H.
    vm_compute in H. discriminate H.
Qed.

(** ** C9: the calendar handle is not initialized *)

(** C9, as amended.  In [index.js], every operation route hit while the
    calendar handle is not initialized answers with status 200 and the
    fixed text that the service is still initializing, and issues no
    provider call.  In [server.js], the two operation routes hit after the
    credentials failed to load answer with status 503 and the fixed text
    that the service is not properly configured, and issue no call
    either. *)
Theorem C9_not_initialized_answer
    (P : Cal.Provider) (rt : Runtime) (env : Env) (st : Index.State)
    (sst : Server.State) (req : Request) (s : Cal.pstate P) :
  let idle := {| provider_state := s; log := [] |} in
  let unavailable :=
    {| status := 503; result := Server.msg_not_configured;
       res_eventId := None; res_eventLink := None |} in
  (Index.calendar st = None ->
   run (Index.check_availability P rt env st req) s
     = (json Index.msg_initializing, idle) /\
   run (Index.create_event P rt env st req) s
     = (json Index.msg_initializing, idle) /\
   run (Index.update_event P rt env st req) s
     = (json Index.msg_initializing, idle) /\
   run (Index.cancel_event P env st req) s
     = (json Index.msg_initializing, idle) /\
   status (json Index.msg_initializing) = 200)
  /\ (Server.authError sst <> None ->
      run (Server.check_availability P rt sst req) s = (unavailable, idle) /\
      run (Server.create_event P rt sst req) s = (unavailable, idle)).
Proof.
  cbv zeta. split.
  - intros Hcal.
    unfold run, Index.check_availability, Index.create_event,
      Index.update_event, Index.cancel_event, Index.requireCalendar.
    rewrite Hcal. repeat split.
  - intros Herr.
    unfold run, Server.check_availability, Server.create_event,
      Server.requireAuth.
    destruct (Server.authError sst); [now split | congruence].
Qed.

Lemma C9_not_initialized_answer_witness :
  run (Index.create_event Fixture.busy (Fixture.fixed_zone 0)
         Fixture.default_env Fixture.not_ready
         {| args := ArgsObject Fixture.dentist |}) 0%nat
  = (json Index.msg_initializing, Build_World Fixture.busy 0%nat []).
Proof.
  refine (proj1 (proj2 (proj1
    (C9_not_initialized_answer Fixture.busy (Fixture.fixed_zone 0)
       Fixture.default_env Fixture.not_ready Fixture.server_failed
       {| args := ArgsObject Fixture.dentist |} 0%nat) _))).
  reflexivity.
Defined.

(** C9 as stated fails on [server.js]: with the auth start-up failed, a
    POST to check-availability is answered with HTTP 503. *)
Lemma C9_server_answers_503 :
  status
    (fst (run (Server.check_availability Fixture.busy (Fixture.fixed_zone 0)
                 Fixture.server_failed {| args := ArgsObject Fixture.nine_to_ten |})
              0%nat)) = 503
  /\ 500 <= 503.
Proof. split; [reflexivity | lia]. Qed.

(** ** C3: free exactly when the listing is empty *)

Lemma msg_busy_not_free (d : string) (n : nat) (lines d' s e : string) :
  Index.msg_busy d n lines <> Index.msg_free d' s e.
Proof. unfold Index.msg_busy, Index.msg_free. cbn. discriminate. Qed.

Lemma msg_check_apology_not_free (d s e : string) :
  Index.msg_check_apology <> Index.msg_free d s e.
Proof. unfold Index.msg_check_apology, Index.msg_free. cbn. discriminate. Qed.

Section IndexListing.

Variable P : Cal.Provider.
Variable rt : Runtime.
Variable env : Env.
Variable st : Index.State.

Lemma eventSummary_unlistable (event : Cal.Event) (w : World P) :
  unlistable rt env event ->
  exists e, Index.eventSummary P rt env event w = (inl e, w).
Proof.
  unfold unlistable, Index.eventSummary.
  destruct (Cal.start event) as [start|]; [|now exists TypeError].
  intros H. run_monad. rewrite H. now exists RangeError.
Qed.

Lemma mapM_eventSummary_unlistable (events : list Cal.Event) (w : World P) :
  Exists (unlistable rt env) events ->
  exists e, fst (mapM (Index.eventSummary P rt env) events w) = inl e.
Proof.
  induction 1 as [event events Hev|event events _ IH]; cbn [mapM];
    unfold bind at 1.
  - destruct (eventSummary_unlistable event w Hev) as [e He].
    rewrite He. now exists e.
  - pose proof (eventSummary_frame P rt env event w) as Hframe.
    destruct (Index.eventSummary P rt env event w) as [[e|line] w1];
      cbn [snd] in Hframe; subst w1; [now exists e|].
    unfold bind at 1. destruct IH as [e He].
    destruct (mapM (Index.eventSummary P rt env) events w) as [[e'|lines] w2];
      cbn [fst] in *; [now exists e' | discriminate He].
Qed.

(** The three answers of the availability route of [index.js] to a valid
    request that the provider answers. *)
Lemma check_availability_answer
    (req : Request) (s s1 : Cal.pstate P) (tmin tmax : Z)
    (response : Cal.Envelope Cal.Events) :
  let a := Index.args_of req in
  let r := result (fst (run (Index.check_availability P rt env st req) s)) in
  let events := items_or_empty response in
  Index.calendar st <> None ->
  JS.truthy (date a) = true ->
  JS.truthy (startTime a) = true ->
  JS.truthy (endTime a) = true ->
  Index.local_date rt (date a) (startTime a) = Some tmin ->
  Index.local_date rt (date a) (endTime a) = Some tmax ->
  Cal.events_list P (availability_query env tmin tmax) s = (inr response, s1) ->
  (r = Index.msg_free (JS.tmpl (date a)) (JS.tmpl (startTime a))
                      (JS.tmpl (endTime a))
   <-> events = [])
  /\ (forall lines,
        events <> [] ->
        Forall2 (listed rt env) events lines ->
        r = Index.msg_busy (JS.tmpl (date a)) (List.length events)
                           (JS.join ", " lines))
  /\ (Exists (unlistable rt env) events -> r = Index.msg_check_apology).
Proof.
  intros a r events Hcal Hd Hs He Hmin Hmax Hlist. subst r.
  rewrite (check_availability_window P rt env st req s tmin tmax
             Hcal Hd Hs He Hmin Hmax).
  fold a. rewrite Hlist. cbv zeta. fold events.
  destruct events as [|event rest] eqn:Hevents.
  - cbn [fst result json]. split; [now split|].
    split; [congruence | intros Hbad; inversion Hbad].
  - split; [|split].
    + destruct (fst (mapM _ _ _)) as [e|lines]; cbn [fst result json].
      * split; [intros H | discriminate].
        now apply msg_check_apology_not_free in H.
      * split; [intros H | discriminate].
        now apply msg_busy_not_free in H.
    + intros lines _ Hlines.
      now rewrite (mapM_eventSummary_listed P rt env _ _ _ Hlines).
    + intros Hbad.
      destruct (mapM_eventSummary_unlistable (event :: rest)
                  {| provider_state := s1;
                     log := [ok (Cal.EventsList
                                   (availability_query env tmin tmax))] |}
                  Hbad) as [e He'].
      now rewrite He'.
Qed.

End IndexListing.

(** C3, as amended.  In [index.js], for every check-availability request
    that passes validation and whose bounds are valid dates, served while
    the calendar handle is initialized and answered by the provider: the
    result is the calendar-is-free text exactly when the provider's list
    for the queried window is empty.  When the list is not empty and every
    event in it has a start that the runtime prints in the configured
    zone, the result carries the number of events in the list and, for
    each event in order, that time of day followed by its title.  When the
    list holds an event without a start, or the runtime refuses the
    configured zone, the result is the availability apology, without a
    count. *)
Theorem C3_free_exactly_when_list_empty
    (P : Cal.Provider) (rt : Runtime) (env : Env) (st : Index.State)
    (req : Request) (s s1 : Cal.pstate P) (tmin tmax : Z)
    (response : Cal.Envelope Cal.Events) :
  let a := Index.args_of req in
  let r := result (fst (run (Index.check_availability P rt env st req) s)) in
  let events := items_or_empty response in
  Index.calendar st <> None ->
  JS.truthy (date a) = true ->
  JS.truthy (startTime a) = true ->
  JS.truthy (endTime a) = true ->
  Index.local_date rt (date a) (startTime a) = Some tmin ->
  Index.local_date rt (date a) (endTime a) = Some tmax ->
  Cal.events_list P (availability_query env tmin tmax) s = (inr response, s1) ->
  (r = "Great news! Your calendar is completely free on "
         ++ JS.tmpl (date a) ++ " between " ++ JS.tmpl (startTime a)
         ++ " and " ++ JS.tmpl (endTime a) ++ "."
   <-> events = [])
  /\ (forall lines,
        events <> [] ->
        Forall2 (listed rt env) events lines ->
        r = "On " ++ JS.tmpl (date a) ++ ", you have "
              ++ JS.tmpl_nat (List.length events) ++ " appointment"
              ++ (if (1 <? List.length events)%nat then "s" else EmptyString)
              ++ ": " ++ JS.join ", " lines
              ++ ". Would you like to schedule around these times?")
  /\ (Exists (unlistable rt env) events ->
      r = "I encountered an issue checking the calendar. Please try again.").
Proof.
  exact (check_availability_answer P rt env st req s s1 tmin tmax response).
Qed.

Lemma C3_free_exactly_when_list_empty_witness :
  result
    (fst (run (Index.check_availability Fixture.busy (Fixture.fixed_zone 0)
                 Fixture.default_env Fixture.ready
                 {| args := ArgsObject Fixture.nine_to_ten |}) 0%nat))
  = "On 2024-06-01, you have 1 appointment: 2024-06-01T09:00:00.000Z: Standup. Would you like to schedule around these times?".
Proof.
  refine (proj1 (proj2
    (C3_free_exactly_when_list_empty Fixture.busy (Fixture.fixed_zone 0)
       Fixture.default_env Fixture.ready
       {| args := ArgsObject Fixture.nine_to_ten |} 0%nat 0%nat
       1717232400000 1717236000000
       {| Cal.data := {| Cal.items := Some [Fixture.stored_event] |} |}
       _ _ _ _ _ _ _))
    ["2024-06-01T09:00:00.000Z: Standup"] _ _).
  - discriminate.
  - reflexivity.
  - reflexivity.
  - reflexivity.
  - vm_compute. reflexivity.
  - vm_compute. reflexivity.
  - reflexivity.
  - discriminate.
  - constructor; [|constructor].
    exists {| Cal.dateTime := Some "2024-06-01T09:00:00";
              Cal.date := None; Cal.timeZone := None |},
           "2024-06-01T09:00:00.000Z".
    split; [reflexivity|]. split; [|reflexivity].
    vm_compute. reflexivity.
Defined.

(** C3 as stated fails on a non-empty list that cannot be printed.  The
    spec's 09:00 to 10:00 request, answered by the provider with two
    events of which the second has no start, gets the apology, which
    carries no count; and so does the same request, answered with one
    well-formed event, when TIMEZONE names a zone the runtime refuses. *)
Lemma C3_busy_answer_without_count :
  let busy (r : string) :=
    exists n lines,
      r = "On 2024-06-01, you have " ++ JS.tmpl_nat n ++ " appointment"
            ++ (if (1 <? n)%nat then "s" else EmptyString) ++ ": " ++ lines
            ++ ". Would you like to schedule around these times?" in
  let startless :=
    result
      (fst (run (Index.check_availability Fixture2.with_startless
                   (Fixture.fixed_zone 0) Fixture.default_env Fixture.ready
                   {| args := ArgsObject Fixture.nine_to_ten |}) 0%nat)) in
  let zoneless :=
    result
      (fst (run (Index.check_availability Fixture.busy Fixture2.one_zone
                   Fixture2.mars Fixture.ready
                   {| args := ArgsObject Fixture.nine_to_ten |}) 0%nat)) in
  (startless = "I encountered an issue checking the calendar. Please try again."
   /\ ~ busy startless)
  /\ (zoneless = "I encountered an issue checking the calendar. Please try again."
      /\ ~ busy zoneless).
Proof.
  cbv zeta.
  assert (Hs : result
      (fst (run (Index.check_availability Fixture2.with_startless
                   (Fixture.fixed_zone 0) Fixture.default_env Fixture.ready
                   {| args := ArgsObject Fixture.nine_to_ten |}) 0%nat))
    = "I encountered an issue checking the calendar. Please try again.")
    by (vm_compute; reflexivity).
  assert (Hz : result
      (fst (run (Index.check_availability Fixture.busy Fixture2.one_zone
                   Fixture2.mars Fixture.ready
                   {| args := ArgsObject Fixture.nine_to_ten |}) 0%nat))
    = "I encountered an issue checking the calendar. Please try again.")
    by (vm_compute; reflexivity).
  rewrite Hs, Hz.
  repeat split; intros (n & lines & H); cbn in H; discriminate H.
Qed.

(** ** C4: the zone of the availability window *)

(** In [index.js], the bounds of the availability query are the same
    under any two environments: the TIMEZONE setting has no part in
    them. *)
Lemma availability_bounds_ignore_TIMEZONE
    (P : Cal.Provider) (rt : Runtime) (env env' : Env) (st : Index.State)
    (req : Request) (s : Cal.pstate P) :
  let bounds (c : Cal.Call) :=
    match c with
    | Cal.EventsList q => Some (Cal.timeMin q, Cal.timeMax q)
    | _ => None
    end in
  map bounds
    (map call (log (snd (run (Index.check_availability P rt env st req) s))))
  = map bounds
      (map call (log (snd (run (Index.check_availability P rt env' st req) s)))).
Proof.
  cbv zeta. rewrite !check_availability_calls.
  destruct (Index.calendar st); [|reflexivity].
  destruct (_ || _); [reflexivity|].
  destruct (Index.local_date rt _ _); [|reflexivity].
  destruct (Index.local_date rt _ _); reflexivity.
Qed.

(** C4 fails on the code.  The spec's example request, 2024-06-01 from
    09:00 to 10:00, served by [index.js] under any TIMEZONE setting [tz]
    (America/Chicago when unset): a process whose local zone is UTC queries
    09:00Z to 10:00Z, and the same request under the same setting in a
    process five hours behind UTC queries 14:00Z to 15:00Z.  The bounds
    follow the process's local zone; TIMEZONE only travels along as the
    [timeZone] parameter of the query. *)
Theorem C4_window_follows_process_zone :
  forall tz : option string,
    let env := {| TIMEZONE := tz; GOOGLE_CALENDAR_ID := None |} in
    let calls rt :=
      map call
        (log (snd (run (Index.check_availability Fixture.free rt env
                          Fixture.ready
                          {| args := ArgsObject Fixture.nine_to_ten |}) 0%nat))) in
    let query tmin tmax :=
      Cal.EventsList
        {| Cal.list_calendarId := "colinyuan3333@gmail.com";
           Cal.timeMin := tmin;
           Cal.timeMax := tmax;
           Cal.singleEvents := true;
           Cal.orderBy := Some "startTime";
           Cal.list_timeZone := Some (JS.or_else tz "America/Chicago") |} in
    calls (Fixture.fixed_zone 0)
      = [query "2024-06-01T09:00:00.000Z" "2024-06-01T10:00:00.000Z"]
    /\ calls (Fixture.fixed_zone (-18000000))
      = [query "2024-06-01T14:00:00.000Z" "2024-06-01T15:00:00.000Z"].
Proof. intros tz. cbv zeta. split; vm_compute; reflexivity. Qed.

(** ** C5 and C6: what the update route writes back *)

(** In [index.js], an update that names an event and gives a new time is
    answered with the apology after the lookup, and no update call is
    issued, whatever else the request carries. *)
Lemma update_event_new_time_never_writes
    (P : Cal.Provider) (rt : Runtime) (env : Env) (st : Index.State)
    (req : Request) (s : Cal.pstate P) :
  let a := Index.args_of req in
  let out := run (Index.update_event P rt env st req) s in
  Index.calendar st <> None ->
  JS.truthy (eventId a) = true ->
  JS.truthy (newTime a) = true ->
  fst out = json Index.msg_update_apology /\
  exists f,
    log (snd out) =
      [ {| call := Cal.EventsGet (get_query env a); failure := f |} ].
Proof.
  intros a out Hcal Hid Htime. subst out.
  rewrite (update_event_outcome P rt env st req s Hcal Hid)
    by (fold a; rewrite Htime; now rewrite orb_true_r).
  fold a. rewrite Htime, orb_true_r.
  destruct (Cal.events_get P (get_query env a) s) as [[e|existing] s1];
    cbn [fst snd log]; split; try reflexivity; eexists; reflexivity.
Qed.

(** In [index.js], an update that names an event and gives only a new
    duration writes the looked-up resource back as it was read. *)
Lemma update_event_duration_only_writes_back
    (P : Cal.Provider) (rt : Runtime) (env : Env) (st : Index.State)
    (req : Request) (s s1 : Cal.pstate P)
    (existingEvent : Cal.Envelope Cal.Event) :
  let a := Index.args_of req in
  let out := run (Index.update_event P rt env st req) s in
  Index.calendar st <> None ->
  JS.truthy (eventId a) = true ->
  JS.falsy (newDate a) = true ->
  JS.falsy (newTime a) = true ->
  JS.truthy_num (newDuration a) = true ->
  Cal.events_get P (get_query env a) s = (inr existingEvent, s1) ->
  exists f,
    log (snd out) =
      [ ok (Cal.EventsGet (get_query env a));
        {| call := Cal.EventsUpdate
                     (update_call env a (Cal.data existingEvent));
           failure := f |} ].
Proof.
  intros a out Hcal Hid Hdate Htime Hdur Hget. subst out.
  rewrite (update_event_outcome P rt env st req s Hcal Hid)
    by (fold a; rewrite Hdur; now rewrite orb_true_r).
  fold a. rewrite Hget, (falsy_not_truthy _ Hdate), (falsy_not_truthy _ Htime).
  cbn [orb]. cbv zeta.
  destruct (Cal.events_update P _ s1) as [[e|r] s2]; cbn [snd log];
    eexists; reflexivity.
Qed.

(** C5 fails on the code.  An update of event abc123 that gives only
    newTime 11:00, on a provider that holds the event and answers every
    call: [index.js] looks the event up, throws on
    [existingEvent.start] (the event is [existingEvent.data]), answers the
    apology, and issues no update call, so nothing is written back. *)
Theorem C5_new_time_only_writes_nothing :
  run (Index.update_event Fixture.busy (Fixture.fixed_zone 0)
         Fixture.default_env Fixture.ready
         {| args := ArgsObject Fixture.move_to_eleven |}) 0%nat
  = (json Index.msg_update_apology,
     Build_World Fixture.busy 0%nat
       [ ok (Cal.EventsGet
               {| Cal.get_calendarId := "colinyuan3333@gmail.com";
                  Cal.get_eventId := "abc123" |}) ]).
Proof. vm_compute. reflexivity. Qed.

(** C6 fails on the code.  An update of event abc123 that gives only
    newDuration 30, on a provider that holds the event from 09:00 to 10:00:
    [index.js] skips the merge, writes the event back exactly as it was
    read, still ending at 10:00, and reports success. *)
Theorem C6_new_duration_only_is_ignored :
  run (Index.update_event Fixture.busy (Fixture.fixed_zone 0)
         Fixture.default_env Fixture.ready
         {| args := ArgsObject Fixture.shorten_to_30 |}) 0%nat
  = ({| status := 200;
        result := "I've successfully updated your appointment.  ";
        res_eventId := Some "abc123";
        res_eventLink := None |},
     Build_World Fixture.busy 1%nat
       [ ok (Cal.EventsGet
               {| Cal.get_calendarId := "colinyuan3333@gmail.com";
                  Cal.get_eventId := "abc123" |});
         ok (Cal.EventsUpdate
               {| Cal.update_calendarId := "colinyuan3333@gmail.com";
                  Cal.update_eventId := "abc123";
                  Cal.update_resource := Fixture.stored_event |}) ])
  /\ option_map Cal.dateTime (Cal.end_ Fixture.stored_event)
     = Some (Some "2024-06-01T10:00:00").
Proof. split; vm_compute; reflexivity. Qed.

(** ** C7: the default duration *)

(** C7.  In [index.js], for every create-event request that passes
    validation and omits duration, served while the calendar handle is
    initialized, with a valid start [t] and a representable end: the
    duration is 60; every insert the route issues is for the event that
    starts at [t] and ends at [t + 60 * 60000]; and when the conflict
    listing comes back empty and the provider answers the insert, the
    route has issued exactly the listing and that insert, and its response
    has status 200 and carries the identifier the provider gave the
    event. *)
Theorem C7_default_duration_is_sixty
    (P : Cal.Provider) (rt : Runtime) (env : Env) (st : Index.State)
    (req : Request) (s : Cal.pstate P) (t : Z) :
  let a := Index.args_of req in
  let tend := t + 60 * 60000 in
  let out := run (Index.create_event P rt env st req) s in
  let inserted := Cal.insert_resource (insert_call env a t tend) in
  Index.calendar st <> None ->
  JS.truthy (title a) = true ->
  JS.truthy (date a) = true ->
  JS.truthy (startTime a) = true ->
  duration a = None ->
  Index.local_date rt (date a) (startTime a) = Some t ->
  Z.abs tend <= JSDate.maxTime ->
  Index.duration_of a = 60
  /\ (forall e,
        In e (log (snd out)) -> Cal.is_insert (call e) = true ->
        call e = Cal.EventsInsert (insert_call env a t tend))
  /\ option_map Cal.dateTime (Cal.start inserted)
     = Some (Some (JSDate.iso_of_time t))
  /\ option_map Cal.dateTime (Cal.end_ inserted)
     = Some (Some (JSDate.iso_of_time (t + 60 * 60000)))
  /\ (forall conflicts s1 response s2,
        Cal.events_list P (conflict_query env t tend) s = (inr conflicts, s1) ->
        items_or_empty conflicts = [] ->
        Cal.events_insert P (insert_call env a t tend) s1 = (inr response, s2) ->
        log (snd out)
          = [ ok (Cal.EventsList (conflict_query env t tend));
              ok (Cal.EventsInsert (insert_call env a t tend)) ]
        /\ status (fst out) = 200
        /\ res_eventId (fst out) = Cal.id (Cal.data response)).
Proof.
  intros a tend out inserted Hcal Ht Hd Hs Hdur Hstart Hend.
  assert (H60 : Index.duration_of a = 60)
    by (unfold Index.duration_of; now rewrite Hdur).
  subst out.
  rewrite (create_event_window P rt env st req s t Hcal Ht Hd Hs Hstart)
    by (fold a; rewrite H60; exact Hend).
  fold a. split; [exact H60|]. rewrite H60. fold tend.
  split; [|split; [reflexivity|split; [reflexivity|]]].
  - destruct (Cal.events_list P (conflict_query env t tend) s)
      as [[e|conflicts] s1]; cbn [snd log].
    + intros x [<-|[]]. discriminate.
    + destruct (items_or_empty conflicts).
      * destruct (Cal.events_insert P _ s1) as [[e|r] s2]; cbn [snd log];
          intros x [<-|[<-|[]]]; try discriminate; reflexivity.
      * intros x [<-|[]]. discriminate.
  - intros conflicts s1 response s2 Hlist Hnone Hins.
    rewrite Hlist, Hnone, Hins. repeat split.
Qed.

Lemma C7_default_duration_is_sixty_witness :
  let out :=
    run (Index.create_event Fixture.free (Fixture.fixed_zone 0)
           Fixture.default_env Fixture.ready
           {| args := ArgsObject Fixture.dentist |}) 0%nat in
  let inserted :=
    Cal.insert_resource
      (insert_call Fixture.default_env Fixture.dentist 1717232400000
         (1717232400000 + 60 * 60000)) in
  option_map Cal.dateTime (Cal.start inserted)
    = Some (Some "2024-06-01T09:00:00.000Z")
  /\ option_map Cal.dateTime (Cal.end_ inserted)
     = Some (Some "2024-06-01T10:00:00.000Z")
  /\ map call (log (snd out))
     = [ Cal.EventsList
           (conflict_query Fixture.default_env 1717232400000
              (1717232400000 + 60 * 60000));
         Cal.EventsInsert
           (insert_call Fixture.default_env Fixture.dentist 1717232400000
              (1717232400000 + 60 * 60000)) ]
  /\ res_eventId (fst out) = Some "abc123".
Proof.
  cbv zeta.
  pose proof
    (C7_default_duration_is_sixty Fixture.free (Fixture.fixed_zone 0)
       Fixture.default_env Fixture.ready {| args := ArgsObject Fixture.dentist |}
       0%nat 1717232400000) as H.
  cbv zeta in H.
  destruct H as (_ & _ & Hstart & Hend & Hrun).
  - discriminate.
  - reflexivity.
  - reflexivity.
  - reflexivity.
  - reflexivity.
  - vm_compute. reflexivity.
  - vm_compute. discriminate.
  - destruct (Hrun {| Cal.data := {| Cal.items := Some [] |} |} 0%nat
                   {| Cal.data := Fixture.stored_event |} 1%nat
                   eq_refl eq_refl eq_refl) as (Hlog & _ & Hid).
    split; [|split; [|split]].
    + vm_compute. reflexivity.
    + vm_compute. reflexivity.
    + exact (f_equal (map call) Hlog).
    + exact Hid.
Defined.

(** ** C8: a provider failure becomes the route's apology *)

Section ServerAnswered.

Variable P : Cal.Provider.
Variable rt : Runtime.

Lemma server_check_availability_body_answered (req : Request) :
  safe all_answered (fun _ => True) (Server.check_availability_body P rt req).
Proof.
  unfold Server.check_availability_body. cbv zeta. safe_body answered_call.
Qed.

Lemma server_create_event_body_answered (req : Request) :
  safe all_answered (fun _ => True) (Server.create_event_body P rt req).
Proof.
  unfold Server.create_event_body. cbv zeta. safe_body answered_call.
Qed.

End ServerAnswered.

(** C8.  For every request to an operation route of [index.js] or of
    [server.js], from any provider state: if a provider call issued while
    serving it was rejected, with whatever error [err], the response is
    status 200 with the route's own fixed apology text, which does not
    depend on [err]. *)
Theorem C8_provider_failure_answers_fixed_apology
    (P : Cal.Provider) (rt : Runtime) (env : Env) (st : Index.State)
    (sst : Server.State) (req : Request) (s : Cal.pstate P)
    (c : Cal.Call) (err : Cal.Error) :
  let rejected (h : Handler P) := In (ko c err) (log (snd (run h s))) in
  let answer (h : Handler P) := fst (run h s) in
  (rejected (Index.check_availability P rt env st req) ->
   answer (Index.check_availability P rt env st req)
     = json Index.msg_check_apology)
  /\ (rejected (Index.create_event P rt env st req) ->
      answer (Index.create_event P rt env st req)
        = json Index.msg_create_apology)
  /\ (rejected (Index.update_event P rt env st req) ->
      answer (Index.update_event P rt env st req)
        = json Index.msg_update_apology)
  /\ (rejected (Index.cancel_event P env st req) ->
      answer (Index.cancel_event P env st req)
        = json Index.msg_cancel_apology)
  /\ (rejected (Server.check_availability P rt sst req) ->
      answer (Server.check_availability P rt sst req)
        = json Server.msg_check_apology)
  /\ (rejected (Server.create_event P rt sst req) ->
      answer (Server.create_event P rt sst req)
        = json Server.msg_create_apology).
Proof.
  cbv zeta.
  unfold Index.check_availability, Index.create_event, Index.update_event,
    Index.cancel_event, Index.requireCalendar, Server.check_availability,
    Server.create_event, Server.requireAuth.
  destruct (Index.calendar st) as [h|], (Server.authError sst) as [e|];
    repeat split;
    try (intros []; fail);
    apply try_catch_rejected;
    auto using check_availability_body_answered, create_event_body_answered,
      update_event_body_answered, cancel_event_body_answered,
      server_check_availability_body_answered,
      server_create_event_body_answered.
Qed.

Lemma C8_provider_failure_answers_fixed_apology_witness :
  fst (run (Index.check_availability
              (Fixture.failing {| Cal.message := "Rate Limit Exceeded" |})
              (Fixture.fixed_zone 0) Fixture.default_env Fixture.ready
              {| args := ArgsObject Fixture.nine_to_ten |}) tt)
  = json Index.msg_check_apology.
Proof.
  refine (proj1
    (C8_provider_failure_answers_fixed_apology
       (Fixture.failing {| Cal.message := "Rate Limit Exceeded" |})
       (Fixture.fixed_zone 0) Fixture.default_env Fixture.ready
       Fixture.server_ok {| args := ArgsObject Fixture.nine_to_ten |} tt
       (Cal.EventsList
          (availability_query Fixture.default_env 1717232400000
             1717236000000))
       {| Cal.message := "Rate Limit Exceeded" |}) _).
  vm_compute. left. reflexivity.
Defined.

(** ** C10: an availability check only reads *)

Section ReadOnly.

Variable P : Cal.Provider.

Lemma try_catch_keeps (I : World P -> Prop) (m : M P Response)
    (h : Exn -> Response) (w : World P) :
  safe I I m -> I w -> I (snd (try_catch m h w)).
Proof.
  intros Hm Hw. unfold try_catch. specialize (Hm w Hw).
  now destruct (m w) as [[e|r] w1].
Qed.

Lemma only_calls_invoke {A} (allowed : Cal.Call -> bool) (c : Cal.Call)
    (op : Cal.pstate P -> (Cal.Error + A) * Cal.pstate P) :
  allowed c = true ->
  safe (only_calls allowed) (only_calls allowed) (invoke c op).
Proof.
  intros Hc. apply safe_invoke; intros w; [|intros e]; intros Hw;
    unfold only_calls in *; cbn [log]; apply Forall_app;
    (split; [exact Hw|]); now constructor.
Qed.

Lemma provider_at_invoke {A} (s : Cal.pstate P) (c : Cal.Call)
    (op : Cal.pstate P -> (Cal.Error + A) * Cal.pstate P) :
  (forall s0, snd (op s0) = s0) ->
  safe (provider_at s) (provider_at s) (invoke c op).
Proof.
  intros Hop. apply safe_invoke; intros w; [|intros e]; intros Hw;
    unfold provider_at in *; cbn [provider_state]; now rewrite Hop.
Qed.

End ReadOnly.

(** C10.  For every request to the availability route, from any provider
    state and in any application state: [index.js] issues nothing but
    events-list calls, and [server.js] nothing but the client acquisition
    and events-list calls, so neither issues an insert, an update or a
    delete; and on a provider whose listing (and client acquisition) leave
    its state alone, the provider's state after the request is the state
    before it. *)
Theorem C10_check_availability_only_reads
    (P : Cal.Provider) (rt : Runtime) (env : Env) (st : Index.State)
    (sst : Server.State) (req : Request) (s : Cal.pstate P) :
  let wi := snd (run (Index.check_availability P rt env st req) s) in
  let ws := snd (run (Server.check_availability P rt sst req) s) in
  (only_calls Cal.is_list wi
   /\ only_calls list_or_client ws
   /\ only_calls Cal.is_read wi
   /\ only_calls Cal.is_read ws)
  /\ ((forall q s0, snd (Cal.events_list P q s0) = s0) ->
      provider_state wi = s)
  /\ ((forall q s0, snd (Cal.events_list P q s0) = s0) ->
      (forall s0, snd (Cal.getClient P s0) = s0) ->
      provider_state ws = s).
Proof.
  cbv zeta.
  unfold run, Index.check_availability, Index.requireCalendar,
    Server.check_availability, Server.requireAuth.
  assert (Hstart : forall allowed,
            only_calls (P:=P) allowed {| provider_state := s; log := [] |})
    by (intros allowed; constructor).
  split; [repeat split|split].
  - destruct (Index.calendar st); [|apply Hstart].
    apply try_catch_keeps; [|apply Hstart].
    unfold Index.check_availability_body, Index.eventSummary. cbv zeta.
    safe_body ltac:(unfold events_list; now apply only_calls_invoke).
  - destruct (Server.authError sst); [apply Hstart|].
    apply try_catch_keeps; [|apply Hstart].
    unfold Server.check_availability_body. cbv zeta.
    safe_body ltac:(unfold events_list, getClient;
                    now apply only_calls_invoke).
  - destruct (Index.calendar st); [|apply Hstart].
    apply try_catch_keeps; [|apply Hstart].
    unfold Index.check_availability_body, Index.eventSummary. cbv zeta.
    safe_body ltac:(unfold events_list; now apply only_calls_invoke).
  - destruct (Server.authError sst); [apply Hstart|].
    apply try_catch_keeps; [|apply Hstart].
    unfold Server.check_availability_body. cbv zeta.
    safe_body ltac:(unfold events_list, getClient;
                    now apply only_calls_invoke).
  - intros Hlist.
    destruct (Index.calendar st); [|reflexivity].
    apply (try_catch_keeps P (provider_at s)); [|reflexivity].
    unfold Index.check_availability_body, Index.eventSummary. cbv zeta.
    safe_body ltac:(unfold events_list; apply provider_at_invoke;
                    now auto).
  - intros Hlist Hclient.
    destruct (Server.authError sst); [reflexivity|].
    apply (try_catch_keeps P (provider_at s)); [|reflexivity].
    unfold Server.check_availability_body. cbv zeta.
    safe_body ltac:(unfold events_list, getClient; apply provider_at_invoke;
                    now auto).
Qed.

Lemma C10_check_availability_only_reads_witness :
  provider_state
    (snd (run (Index.check_availability Fixture.busy (Fixture.fixed_zone 0)
                 Fixture.default_env Fixture.ready
                 {| args := ArgsObject Fixture.nine_to_ten |}) 0%nat))
  = 0%nat.
Proof.
  refine (proj1 (proj2
    (C10_check_availability_only_reads Fixture.busy
       (Fixture.fixed_zone 0) Fixture.default_env Fixture.ready
       Fixture.server_ok {| args := ArgsObject Fixture.nine_to_ten |} 0%nat)) _).
  intros q s0. reflexivity.
Defined.

(* ================================================================== *)
(** * Further properties of the routes *)

(** ** What a route returns *)

Section Returns.

Variable P : Cal.Provider.

Lemma returns_ret {A} (Q : A -> Prop) (a : A) :
  Q a -> returns Q (ret (P:=P) a).
Proof. intros Ha w. exact Ha. Qed.

Lemma returns_throw {A} (Q : A -> Prop) (e : Exn) :
  returns Q (throw (P:=P) (A:=A) e).
Proof. intros w. exact Logic.I. Qed.

Lemma returns_bind {A C} (Q : C -> Prop) (m : M P A) (k : A -> M P C) :
  (forall a, returns Q (k a)) -> returns Q (bind m k).
Proof.
  intros Hk w. unfold bind.
  destruct (m w) as [[e|a] w1]; [exact Logic.I|]. apply Hk.
Qed.

Lemma try_catch_returns (Q : Response -> Prop) (m : M P Response)
    (h : Exn -> Response) (w : World P) :
  returns Q m -> (forall e, Q (h e)) -> Q (fst (try_catch m h w)).
Proof.
  intros Hm Hh. unfold try_catch. specialize (Hm w).
  destruct (m w) as [[e|r] w1]; cbn [fst]; auto.
Qed.

End Returns.

(** Reduces [returns Q body] to [Q] of each response the body builds. *)
Ltac returns_body :=
  repeat first
    [ apply returns_ret
    | apply returns_throw
    | apply returns_bind; intro
    | match goal with
      | |- returns _ (if ?b then _ else _) => destruct b
      | |- returns _ (match ?x with _ => _ end) => destruct x
      end ].

(** Every operation route of [index.js] answers with HTTP status 200: to
    every request, in every application state, whatever the provider
    does. *)
Theorem index_routes_always_answer_200
    (P : Cal.Provider) (rt : Runtime) (env : Env) (st : Index.State)
    (req : Request) (s : Cal.pstate P) :
  status (fst (run (Index.check_availability P rt env st req) s)) = 200
  /\ status (fst (run (Index.create_event P rt env st req) s)) = 200
  /\ status (fst (run (Index.update_event P rt env st req) s)) = 200
  /\ status (fst (run (Index.cancel_event P env st req) s)) = 200.
Proof.
  unfold run, Index.check_availability, Index.create_event,
    Index.update_event, Index.cancel_event, Index.requireCalendar.
  destruct (Index.calendar st); [|repeat split].
  repeat split;
    (apply (try_catch_returns P (fun r => status r = 200));
     [|reflexivity]).
  - unfold Index.check_availability_body. cbv zeta. returns_body; reflexivity.
  - unfold Index.create_event_body. cbv zeta. returns_body; reflexivity.
  - unfold Index.update_event_body. cbv zeta. returns_body; reflexivity.
  - unfold Index.cancel_event_body. cbv zeta. returns_body; reflexivity.
Qed.

(** Each operation route of [server.js] answers 503 exactly when the
    start-up left an auth error, and 200 otherwise, whatever the request
    and the provider. *)
Theorem server_routes_answer_503_iff_auth_failed
    (P : Cal.Provider) (rt : Runtime) (sst : Server.State)
    (req : Request) (s : Cal.pstate P) :
  let expected :=
    match Server.authError sst with
    | Some _ => 503
    | None => 200
    end in
  status (fst (run (Server.check_availability P rt sst req) s)) = expected
  /\ status (fst (run (Server.create_event P rt sst req) s)) = expected.
Proof.
  cbv zeta.
  unfold run, Server.check_availability, Server.create_event,
    Server.requireAuth.
  destruct (Server.authError sst); [split; reflexivity|].
  split;
    (apply (try_catch_returns P (fun r => status r = 200));
     [|reflexivity]).
  - unfold Server.check_availability_body. cbv zeta. returns_body; reflexivity.
  - unfold Server.create_event_body. cbv zeta. returns_body; reflexivity.
Qed.

(** ** Dates that do not parse *)

Section IndexInvalid.

Variable P : Cal.Provider.
Variable rt : Runtime.
Variable env : Env.
Variable st : Index.State.

(** In [index.js], an availability request that passes validation but
    whose start or end is not a valid date is answered with the apology,
    and nothing is asked of the provider. *)
Theorem check_availability_invalid_date_not_queried
    (req : Request) (s : Cal.pstate P) :
  let a := Index.args_of req in
  Index.calendar st <> None ->
  JS.truthy (date a) = true ->
  JS.truthy (startTime a) = true ->
  JS.truthy (endTime a) = true ->
  Index.local_date rt (date a) (startTime a) = None
  \/ Index.local_date rt (date a) (endTime a) = None ->
  run (Index.check_availability P rt env st req) s
  = (json Index.msg_check_apology, {| provider_state := s; log := [] |}).
Proof.
  intros a Hcal Hd Hs He Hbad.
  unfold run, Index.check_availability, Index.requireCalendar.
  destruct (Index.calendar st) as [h|]; [clear Hcal | congruence].
  unfold try_catch, Index.check_availability_body.
  rewrite (args_read req date eq_refl Hd), bind_prop_some. fold a.
  rewrite (truthy_not_falsy _ Hd), (truthy_not_falsy _ Hs),
    (truthy_not_falsy _ He). cbn [orb].
  destruct Hbad as [Hbad|Hbad]; rewrite Hbad.
  - reflexivity.
  - now destruct (Index.local_date rt (date a) (startTime a)).
Qed.

(** In [index.js], a create request that passes validation but whose
    start is not a valid date, or whose end falls outside the range of
    time values, is answered with the apology, and nothing is asked of the
    provider. *)
Theorem create_event_invalid_date_not_sent
    (req : Request) (s : Cal.pstate P) :
  let a := Index.args_of req in
  Index.calendar st <> None ->
  JS.truthy (title a) = true ->
  JS.truthy (date a) = true ->
  JS.truthy (startTime a) = true ->
  Index.local_date rt (date a) (startTime a) = None
  \/ (exists t,
        Index.local_date rt (date a) (startTime a) = Some t /\
        JSDate.maxTime < Z.abs (t + Index.duration_of a * 60000)) ->
  run (Index.create_event P rt env st req) s
  = (json Index.msg_create_apology, {| provider_state := s; log := [] |}).
Proof.
  intros a Hcal Ht Hd Hs Hbad.
  unfold run, Index.create_event, Index.requireCalendar.
  destruct (Index.calendar st) as [h|]; [clear Hcal | congruence].
  unfold try_catch, Index.create_event_body.
  rewrite (args_read req title eq_refl Ht), bind_prop_some. fold a.
  rewrite (truthy_not_falsy _ Ht), (truthy_not_falsy _ Hd),
    (truthy_not_falsy _ Hs). cbn [orb].
  destruct Hbad as [Hbad|(t & Hstart & Hend)].
  - rewrite Hbad. reflexivity.
  - rewrite Hstart. cbn [JSDate.getTime option_map DateCtor.of_number].
    unfold JSDate.TimeClip.
    destruct (Z.leb_spec (Z.abs (t + Index.duration_of a * 60000))
                         JSDate.maxTime); [lia|].
    reflexivity.
Qed.

(** ** The calls a route can issue *)

(** The create route of [index.js], on every request: it issues nothing,
    or the conflict listing alone, or the listing followed by one insert
    of the event built from the request; never anything else. *)
Theorem create_event_call_shape (req : Request) (s : Cal.pstate P) :
  let a := Index.args_of req in
  let calls :=
    map call (log (snd (run (Index.create_event P rt env st req) s))) in
  calls = []
  \/ exists t,
       Index.local_date rt (date a) (startTime a) = Some t /\
       let tmax := t + Index.duration_of a * 60000 in
       calls = [Cal.EventsList (conflict_query env t tmax)]
       \/ calls = [Cal.EventsList (conflict_query env t tmax);
                   Cal.EventsInsert (insert_call env a t tmax)].
Proof.
  intros a calls. subst calls.
  destruct (Index.calendar st) as [h|] eqn:Hcal;
    [|left; unfold run, Index.create_event, Index.requireCalendar;
      now rewrite Hcal].
  assert (Hready : Index.calendar st <> None) by congruence.
  destruct (JS.falsy (title a) || JS.falsy (date a) || JS.falsy (startTime a))
    eqn:Hmissing.
  - left. unfold run, Index.create_event, Index.requireCalendar, try_catch,
      Index.create_event_body. rewrite Hcal.
    read_args req a; [|reflexivity]. now rewrite Hmissing.
  - apply orb_false_elim in Hmissing as [Hmissing Hs].
    apply orb_false_elim in Hmissing as [Ht Hd].
    assert (Ht' : JS.truthy (title a) = true) by (unfold JS.truthy; now rewrite Ht).
    assert (Hd' : JS.truthy (date a) = true) by (unfold JS.truthy; now rewrite Hd).
    assert (Hs' : JS.truthy (startTime a) = true) by (unfold JS.truthy; now rewrite Hs).
    destruct (Index.local_date rt (date a) (startTime a)) as [t|] eqn:Hstart.
    + destruct (Z.leb_spec (Z.abs (t + Index.duration_of a * 60000))
                           JSDate.maxTime) as [Hend|Hend].
      * right. exists t. split; [reflexivity|]. cbv zeta.
        rewrite (create_event_window P rt env st req s t Hready Ht' Hd' Hs'
                   Hstart Hend). fold a.
        destruct (Cal.events_list P _ s) as [[e|conflicts] s1];
          [now left|].
        destruct (items_or_empty conflicts); [|now left].
        destruct (Cal.events_insert P _ s1) as [[e|r] s2]; now right.
      * left.
        rewrite (create_event_invalid_date_not_sent req s Hready Ht' Hd' Hs');
          [reflexivity|]. right. exists t. now split.
    + left.
      rewrite (create_event_invalid_date_not_sent req s Hready Ht' Hd' Hs');
        [reflexivity|]. now left.
Qed.

(** The update route of [index.js], on every request: it issues nothing,
    or the lookup alone, or the lookup followed by one update that writes
    back, under the same event identifier, exactly the resource the lookup
    returned.  No request makes it write anything else. *)
Theorem update_event_call_shape (req : Request) (s : Cal.pstate P) :
  let a := Index.args_of req in
  let calls :=
    map call (log (snd (run (Index.update_event P rt env st req) s))) in
  calls = []
  \/ calls = [Cal.EventsGet (get_query env a)]
  \/ exists existingEvent s1,
       Cal.events_get P (get_query env a) s = (inr existingEvent, s1) /\
       calls = [Cal.EventsGet (get_query env a);
                Cal.EventsUpdate
                  (update_call env a (Cal.data existingEvent))].
Proof.
  intros a calls. subst calls.
  destruct (Index.calendar st) as [h|] eqn:Hcal;
    [|left; unfold run, Index.update_event, Index.requireCalendar;
      now rewrite Hcal].
  assert (Hready : Index.calendar st <> None) by congruence.
  destruct (JS.falsy (eventId a)
            || (JS.falsy (newDate a) && JS.falsy (newTime a)
                && JS.falsy_num (newDuration a))) eqn:Hmissing.
  - left. unfold run, Index.update_event, Index.requireCalendar, try_catch,
      Index.update_event_body. rewrite Hcal.
    read_args req a; [|reflexivity]. now rewrite Hmissing.
  - apply orb_false_elim in Hmissing as [Hid Hchange].
    assert (Hid' : JS.truthy (eventId a) = true)
      by (unfold JS.truthy; now rewrite Hid).
    assert (Hchange' : JS.truthy (newDate a) || JS.truthy (newTime a)
                       || JS.truthy_num (newDuration a) = true)
      by (revert Hchange; unfold JS.truthy, JS.truthy_num;
          destruct (JS.falsy (newDate a)), (JS.falsy (newTime a)),
            (JS.falsy_num (newDuration a)); cbn; congruence).
    rewrite (update_event_outcome P rt env st req s Hready Hid' Hchange').
    fold a.
    destruct (Cal.events_get P (get_query env a) s) as [[e|existing] s1];
      [right; now left|].
    destruct (JS.truthy (newDate a) || JS.truthy (newTime a));
      [right; now left|].
    cbv zeta. right. right. exists existing, s1. split; [reflexivity|].
    now destruct (Cal.events_update P _ s1) as [[e|r] s2].
Qed.

(** The cancel route of [index.js], on every request: it issues nothing,
    or exactly one delete, of the event the request names. *)
Theorem cancel_event_call_shape (req : Request) (s : Cal.pstate P) :
  let a := Index.args_of req in
  let calls :=
    map call (log (snd (run (Index.cancel_event P env st req) s))) in
  (calls = [] /\ (Index.calendar st = None \/ JS.falsy (eventId a) = true))
  \/ (calls = [Cal.EventsDelete (delete_call env a)]
      /\ Index.calendar st <> None /\ JS.truthy (eventId a) = true).
Proof.
  intros a calls. subst calls.
  destruct (Index.calendar st) as [h|] eqn:Hcal;
    [|left; unfold run, Index.cancel_event, Index.requireCalendar;
      rewrite Hcal; split; [reflexivity | now left]].
  assert (Hready : Index.calendar st <> None) by congruence.
  destruct (JS.falsy (eventId a)) eqn:Hid.
  - left. unfold run, Index.cancel_event, Index.requireCalendar, try_catch,
      Index.cancel_event_body. rewrite Hcal.
    read_args req a; [rewrite Hid|]; (split; [reflexivity | now right]).
  - assert (Hid' : JS.truthy (eventId a) = true)
      by (unfold JS.truthy; now rewrite Hid).
    right. rewrite (cancel_event_outcome P env st req s Hready Hid').
    fold a. fold (delete_call env a).
    split; [|split; [congruence | exact Hid']].
    now destruct (Cal.events_delete P _ s) as [[e|r] s1].
Qed.

End IndexInvalid.

Lemma check_availability_invalid_date_not_queried_witness :
  run (Index.check_availability Fixture.busy (Fixture.fixed_zone 0)
         Fixture.default_env Fixture.ready
         {| args := ArgsObject Fixture2.junk_date |}) 0%nat
  = (json Index.msg_check_apology, Build_World Fixture.busy 0%nat []).
Proof.
  apply (check_availability_invalid_date_not_queried Fixture.busy
           (Fixture.fixed_zone 0) Fixture.default_env Fixture.ready
           {| args := ArgsObject Fixture2.junk_date |} 0%nat).
  - discriminate.
  - reflexivity.
  - reflexivity.
  - reflexivity.
  - left. reflexivity.
Defined.

Lemma create_event_invalid_date_not_sent_witness :
  run (Index.create_event Fixture.busy (Fixture.fixed_zone 0)
         Fixture.default_env Fixture.ready
         {| args := ArgsObject Fixture2.junk_date |}) 0%nat
  = (json Index.msg_create_apology, Build_World Fixture.busy 0%nat []).
Proof.
  apply (create_event_invalid_date_not_sent Fixture.busy
           (Fixture.fixed_zone 0) Fixture.default_env Fixture.ready
           {| args := ArgsObject Fixture2.junk_date |} 0%nat).
  - discriminate.
  - reflexivity.
  - reflexivity.
  - reflexivity.
  - left. reflexivity.
Defined.

(** ** One calendar *)

(** Every call that any operation route of [index.js] issues is addressed
    to the one calendar of the configuration, [GOOGLE_CALENDAR_ID] or the
    built-in default; and every call that a route of [server.js] issues,
    the client acquisition aside, is addressed to [primary]. *)
Theorem routes_address_one_calendar
    (P : Cal.Provider) (rt : Runtime) (env : Env) (st : Index.State)
    (sst : Server.State) (req : Request) (s : Cal.pstate P) :
  let mine := addressed_to (Index.CALENDAR_ID env) in
  let primary := addressed_to "primary" in
  only_calls mine (snd (run (Index.check_availability P rt env st req) s))
  /\ only_calls mine (snd (run (Index.create_event P rt env st req) s))
  /\ only_calls mine (snd (run (Index.update_event P rt env st req) s))
  /\ only_calls mine (snd (run (Index.cancel_event P env st req) s))
  /\ only_calls primary (snd (run (Server.check_availability P rt sst req) s))
  /\ only_calls primary (snd (run (Server.create_event P rt sst req) s)).
Proof.
  cbv zeta.
  unfold run, Index.check_availability, Index.create_event,
    Index.update_event, Index.cancel_event, Index.requireCalendar,
    Server.check_availability, Server.create_event, Server.requireAuth.
  assert (Hstart : forall allowed,
            only_calls (P:=P) allowed {| provider_state := s; log := [] |})
    by (intros allowed; constructor).
  assert (Hid : forall id, (id =? id)%string = true)
    by (intros id; apply String.eqb_refl).
  destruct (Index.calendar st), (Server.authError sst);
    repeat split; try apply Hstart;
    (apply try_catch_keeps; [|apply Hstart]);
    unfold Index.check_availability_body, Index.eventSummary,
      Index.create_event_body, Index.update_event_body,
      Index.envelope_dateTime, Index.cancel_event_body,
      Server.check_availability_body, Server.create_event_body; cbv zeta;
    safe_body ltac:(first [ unfold events_list | unfold events_insert
                          | unfold events_get | unfold events_update
                          | unfold events_delete | unfold getClient ];
                    apply only_calls_invoke; unfold addressed_to; cbn;
                    solve [reflexivity | apply Hid]).
Qed.

(** ** Invitations *)

(** Every insert that the create route of [index.js] issues asks the
    provider to notify (sendUpdates 'all') exactly when the request names
    a non-empty attendeeEmail, and then the event carries that address as
    its only attendee; otherwise it asks for no notification and the event
    has no attendee list.  Either way, the event carries the two fixed
    reminders, an email a day ahead and a popup 30 minutes ahead. *)
Theorem create_event_invites_only_named_attendee
    (P : Cal.Provider) (rt : Runtime) (env : Env) (st : Index.State)
    (req : Request) (s : Cal.pstate P) (e : Entry) (p : Cal.InsertParams) :
  let a := Index.args_of req in
  In e (log (snd (run (Index.create_event P rt env st req) s))) ->
  call e = Cal.EventsInsert p ->
  (if JS.truthy (attendeeEmail a)
   then Cal.sendUpdates p = Some "all"
        /\ Cal.attendees (Cal.insert_resource p)
           = Some [ {| Cal.email := JS.tmpl (attendeeEmail a) |} ]
   else Cal.sendUpdates p = Some "none"
        /\ Cal.attendees (Cal.insert_resource p) = None)
  /\ Cal.reminders (Cal.insert_resource p)
     = Some {| Cal.useDefault := false;
               Cal.overrides :=
                 [ {| Cal.method := "email"; Cal.minutes := 1440 |};
                   {| Cal.method := "popup"; Cal.minutes := 30 |} ] |}
  /\ Cal.summary (Cal.insert_resource p) = title a.
Proof.
  intros a Hin Hcall.
  apply (in_map call) in Hin. rewrite Hcall in Hin.
  pose proof (create_event_call_shape P rt env st req s) as Hshape.
  cbv zeta in Hshape.
  destruct Hshape as [Hnone|(t & _ & [Hone|Htwo])].
  - rewrite Hnone in Hin. destruct Hin.
  - rewrite Hone in Hin. destruct Hin as [Hin|[]]. discriminate Hin.
  - rewrite Htwo in Hin.
    destruct Hin as [Hin|[Hin|[]]]; [discriminate Hin|].
    injection Hin as <-. fold a. cbn.
    destruct (JS.truthy (attendeeEmail a)); repeat split.
Qed.

Lemma create_event_invites_only_named_attendee_witness :
  Cal.sendUpdates
    (insert_call Fixture.default_env Fixture2.with_guest 1717232400000
       (1717232400000 + 30 * 60000)) = Some "all"
  /\ Cal.attendees
       (Cal.insert_resource
          (insert_call Fixture.default_env Fixture2.with_guest 1717232400000
             (1717232400000 + 30 * 60000)))
     = Some [ {| Cal.email := "guest@example.com" |} ].
Proof.
  refine (proj1
    (create_event_invites_only_named_attendee Fixture.free
       (Fixture.fixed_zone 0) Fixture.default_env Fixture.ready
       {| args := ArgsObject Fixture2.with_guest |} 0%nat
       (ok (Cal.EventsInsert
              (insert_call Fixture.default_env Fixture2.with_guest
                 1717232400000 (1717232400000 + 30 * 60000))))
       (insert_call Fixture.default_env Fixture2.with_guest 1717232400000
          (1717232400000 + 30 * 60000)) _ _)).
  - vm_compute. right. left. reflexivity.
  - reflexivity.
Defined.

(** ** An event without a start *)

Section Startless.

Variable P : Cal.Provider.
Variable rt : Runtime.
Variable env : Env.
Variable st : Index.State.

Lemma eventSummary_startless (event : Cal.Event) (w : World P) :
  Cal.start event = None ->
  Index.eventSummary P rt env event w = (inl TypeError, w).
Proof. intros H. unfold Index.eventSummary. now rewrite H. Qed.

Lemma mapM_eventSummary_startless (events : list Cal.Event) (w : World P) :
  Exists (fun event => Cal.start event = None) events ->
  exists e, fst (mapM (Index.eventSummary P rt env) events w) = inl e.
Proof.
  induction 1 as [event events Hev|event events _ IH]; cbn [mapM];
    unfold bind at 1.
  - rewrite (eventSummary_startless _ _ Hev). now exists TypeError.
  - pose proof (eventSummary_frame P rt env event w) as Hframe.
    destruct (Index.eventSummary P rt env event w) as [[e|line] w1];
      cbn [snd] in Hframe; subst w1; [now exists e|].
    unfold bind at 1. destruct IH as [e He].
    destruct (mapM (Index.eventSummary P rt env) events w) as [[e'|lines] w2];
      cbn [fst] in *; [now exists e' | discriminate He].
Qed.

(** In [index.js], when the provider answers a valid availability request
    with a list in which some event has no [start], the whole answer is
    the apology: neither the count nor any other event is reported. *)
Theorem check_availability_startless_event_apology
    (req : Request) (s s1 : Cal.pstate P) (tmin tmax : Z)
    (response : Cal.Envelope Cal.Events) :
  let a := Index.args_of req in
  Index.calendar st <> None ->
  JS.truthy (date a) = true ->
  JS.truthy (startTime a) = true ->
  JS.truthy (endTime a) = true ->
  Index.local_date rt (date a) (startTime a) = Some tmin ->
  Index.local_date rt (date a) (endTime a) = Some tmax ->
  Cal.events_list P (availability_query env tmin tmax) s = (inr response, s1) ->
  Exists (fun event => Cal.start event = None) (items_or_empty response) ->
  fst (run (Index.check_availability P rt env st req) s)
  = json Index.msg_check_apology.
Proof.
  intros a Hcal Hd Hs He Hmin Hmax Hlist Hbad.
  rewrite (check_availability_window P rt env st req s tmin tmax
             Hcal Hd Hs He Hmin Hmax).
  fold a. rewrite Hlist. cbv zeta.
  destruct (items_or_empty response) as [|event events] eqn:Hevents;
    [inversion Hbad|].
  destruct (mapM_eventSummary_startless (event :: events)
              {| provider_state := s1;
                 log := [ok (Cal.EventsList
                               (availability_query env tmin tmax))] |} Hbad)
    as [e He'].
  now rewrite He'.
Qed.

End Startless.

Lemma check_availability_startless_event_apology_witness :
  fst (run (Index.check_availability
              (Fixture.scripted
                 (Some [Fixture.stored_event; Fixture2.startless_event])
                 Fixture.stored_event)
              (Fixture.fixed_zone 0) Fixture.default_env Fixture.ready
              {| args := ArgsObject Fixture.nine_to_ten |}) 0%nat)
  = json Index.msg_check_apology.
Proof.
  apply (check_availability_startless_event_apology
           (Fixture.scripted
              (Some [Fixture.stored_event; Fixture2.startless_event])
              Fixture.stored_event)
           (Fixture.fixed_zone 0) Fixture.default_env Fixture.ready
           {| args := ArgsObject Fixture.nine_to_ten |} 0%nat 0%nat
           1717232400000 1717236000000
           {| Cal.data :=
                {| Cal.items :=
                     Some [Fixture.stored_event; Fixture2.startless_event] |} |}).
  - discriminate.
  - reflexivity.
  - reflexivity.
  - reflexivity.
  - vm_compute. reflexivity.
  - vm_compute. reflexivity.
  - reflexivity.
  - right. left. reflexivity.
Defined.

(** ** What a successful update says *)

(** In [index.js], whenever the update route reports success, its text is
    the bare confirmation: the request that got there carried neither a
    new date nor a new time, so the "New date" and "New time" parts of the
    message are never filled in. *)
Theorem update_event_success_names_no_change
    (P : Cal.Provider) (rt : Runtime) (env : Env) (st : Index.State)
    (req : Request) (s : Cal.pstate P) (e : Entry) (p : Cal.UpdateParams) :
  let a := Index.args_of req in
  let out := run (Index.update_event P rt env st req) s in
  In e (log (snd out)) ->
  call e = Cal.EventsUpdate p ->
  failure e = None ->
  JS.falsy (newDate a) = true
  /\ JS.falsy (newTime a) = true
  /\ JS.truthy_num (newDuration a) = true
  /\ result (fst out) = "I've successfully updated your appointment.  ".
Proof.
  intros a out Hin Hcall Hok. subst out.
  destruct (Index.calendar st) as [h|] eqn:Hcal;
    [|revert Hin; unfold run, Index.update_event, Index.requireCalendar;
      rewrite Hcal; intros []].
  assert (Hready : Index.calendar st <> None) by congruence.
  destruct (JS.falsy (eventId a)
            || (JS.falsy (newDate a) && JS.falsy (newTime a)
                && JS.falsy_num (newDuration a))) eqn:Hmissing.
  - revert Hin. unfold run, Index.update_event, Index.requireCalendar,
      try_catch, Index.update_event_body. rewrite Hcal.
    read_args req a; [rewrite Hmissing|]; intros [].
  - apply orb_false_elim in Hmissing as [Hid Hchange].
    assert (Hid' : JS.truthy (eventId a) = true)
      by (unfold JS.truthy; now rewrite Hid).
    assert (Hchange' : JS.truthy (newDate a) || JS.truthy (newTime a)
                       || JS.truthy_num (newDuration a) = true)
      by (revert Hchange; unfold JS.truthy, JS.truthy_num;
          destruct (JS.falsy (newDate a)), (JS.falsy (newTime a)),
            (JS.falsy_num (newDuration a)); cbn; congruence).
    revert Hin.
    rewrite (update_event_outcome P rt env st req s Hready Hid' Hchange').
    fold a.
    destruct (Cal.events_get P (get_query env a) s) as [[err|existing] s1].
    + intros [<-|[]]. discriminate Hcall.
    + revert Hchange'. unfold Index.msg_updated, JS.truthy, JS.truthy_num.
      destruct (JS.falsy (newDate a)), (JS.falsy (newTime a)); cbn [negb orb];
        try (intros _ [<-|[]]; discriminate Hcall).
      intros Hdur. cbv zeta.
      destruct (Cal.events_update P _ s1) as [[err|r] s2]; cbn [fst snd log];
        intros [<-|[<-|[]]]; try discriminate Hcall; try discriminate Hok.
      now repeat split.
Qed.

Lemma update_event_success_names_no_change_witness :
  result
    (fst (run (Index.update_event Fixture.busy (Fixture.fixed_zone 0)
                 Fixture.default_env Fixture.ready
                 {| args := ArgsObject Fixture.shorten_to_30 |}) 0%nat))
  = "I've successfully updated your appointment.  ".
Proof.
  refine (proj2 (proj2 (proj2
    (update_event_success_names_no_change Fixture.busy (Fixture.fixed_zone 0)
       Fixture.default_env Fixture.ready
       {| args := ArgsObject Fixture.shorten_to_30 |} 0%nat
       (ok (Cal.EventsUpdate
              (update_call Fixture.default_env Fixture.shorten_to_30
                 Fixture.stored_event)))
       (update_call Fixture.default_env Fixture.shorten_to_30
          Fixture.stored_event) _ _ _)))).
  - vm_compute. right. left. reflexivity.
  - reflexivity.
  - reflexivity.
Defined.

(** ** The routes of [server.js] *)

(** The create route of [server.js], on every request: it issues nothing,
    or the client acquisition alone, or the client acquisition followed by
    one insert of the event from the request's start to its start plus
    duration.  It never lists, reads, updates or deletes. *)
Theorem server_create_event_call_shape
    (P : Cal.Provider) (rt : Runtime) (sst : Server.State)
    (req : Request) (s : Cal.pstate P) :
  let calls :=
    map call (log (snd (run (Server.create_event P rt sst req) s))) in
  calls = []
  \/ calls = [Cal.GetClient]
  \/ exists a t,
       args req = ArgsObject a /\
       Server.local_date rt (date a) (startTime a) = Some t /\
       calls = [Cal.GetClient;
                Cal.EventsInsert
                  (server_insert_call a t
                     (t + Server.duration_of a * 60000))].
Proof.
  cbv zeta. unfold run, Server.create_event, Server.requireAuth.
  destruct (Server.authError sst); [now left|].
  unfold try_catch, Server.create_event_body, Server.args_of.
  destruct (args req) as [| |a] eqn:Hargs; [now left|now left|].
  run_monad.
  destruct (Cal.getClient P s) as [[e|u] s1]; [right; now left|].
  destruct (Server.local_date rt (date a) (startTime a)) as [t|] eqn:Hstart;
    [|right; now left].
  cbn [JSDate.getTime option_map DateCtor.of_number JSDate.toISOString].
  destruct (JSDate.TimeClip (t + Server.duration_of a * 60000)) as [tend|]
    eqn:Hend; [|right; now left].
  assert (tend = t + Server.duration_of a * 60000) as ->
    by (unfold JSDate.TimeClip in Hend;
        destruct (_ <=? _); congruence).
  cbn [JSDate.toISOString option_map].
  fold (server_insert_call a t (t + Server.duration_of a * 60000)).
  right. right. exists a, t.
  split; [reflexivity || exact Hargs|].
  split; [reflexivity || exact Hstart|].
  now destruct (Cal.events_insert P _ s1) as [[e|r] s2].
Qed.

(** In [server.js], a request whose body has no [args] is answered by
    either operation route with that route's apology and status 200, and
    no call is issued, not even the client acquisition. *)
Theorem server_routes_without_args_apologise
    (P : Cal.Provider) (rt : Runtime) (sst : Server.State)
    (req : Request) (s : Cal.pstate P) :
  Server.authError sst = None ->
  args req = ArgsUndefined ->
  run (Server.check_availability P rt sst req) s
    = (json Server.msg_check_apology, {| provider_state := s; log := [] |})
  /\ run (Server.create_event P rt sst req) s
     = (json Server.msg_create_apology, {| provider_state := s; log := [] |}).
Proof.
  intros Hauth Hargs.
  unfold run, Server.check_availability, Server.create_event,
    Server.requireAuth, try_catch, Server.check_availability_body,
    Server.create_event_body, Server.args_of.
  rewrite Hauth, Hargs. split; reflexivity.
Qed.

Lemma server_routes_without_args_apologise_witness :
  run (Server.create_event Fixture.busy (Fixture.fixed_zone 0)
         Fixture.server_ok {| args := ArgsUndefined |}) 0%nat
  = (json Server.msg_create_apology, Build_World Fixture.busy 0%nat []).
Proof.
  refine (proj2
    (server_routes_without_args_apologise Fixture.busy (Fixture.fixed_zone 0)
       Fixture.server_ok {| args := ArgsUndefined |} 0%nat _ _)); reflexivity.
Defined.

(* ================================================================== *)
(** * Start-up and health *)

Section IndexStartup.

Variable P : Cal.Provider.
Variable H : Host.t P.

(** [initializeGoogleCalendar] of [index.js] returns true exactly when the
    key is set, parses, the client is acquired and the connection test
    lists calendars; whenever it returns false it has recorded an auth
    error; and, from a state without a handle, it installs the handle
    exactly when the client was acquired, whether or not the connection
    test then succeeded. *)
Theorem initializeGoogleCalendar_outcome
    (key : option string) (st : Index.State) (s : Cal.pstate P) :
  let r := IndexAdmin.initializeGoogleCalendar P H key st s in
  let acquired s1 :=
    JS.truthy key = true /\
    exists credentials,
      Host.parse_credentials H (JS.tmpl key) = inr credentials /\
      Host.GoogleAuth H credentials = inr tt /\
      Cal.getClient P s = (inr tt, s1) in
  (fst (fst r) = true
   <-> exists s1 calendarList calendars,
         acquired s1 /\
         Host.calendarList_list H s1 = (inr calendarList, snd r) /\
         Host.items (Cal.data calendarList) = Some calendars)
  /\ (fst (fst r) = true ->
      Index.authError (snd (fst r)) = Index.authError st)
  /\ (fst (fst r) = false -> Index.authError (snd (fst r)) <> None)
  /\ (Index.calendar st = None ->
      (Index.calendar (snd (fst r)) <> None <-> exists s1, acquired s1)).
Proof.
  cbv zeta. unfold IndexAdmin.initializeGoogleCalendar, IndexAdmin.failed,
    JS.truthy.
  destruct (JS.falsy key).
  { cbn. repeat split; try discriminate; try tauto.
    - intros (s1 & l & cs & (Hk & _) & _). discriminate Hk.
    - intros (s1 & Hk & _). discriminate Hk. }
  destruct (Host.parse_credentials H (JS.tmpl key)) as [e|c].
  { cbn. repeat split; try discriminate; try tauto.
    - intros (s1 & l & cs & (_ & c & Hc & _) & _). discriminate Hc.
    - intros (s1 & _ & c & Hc & _). discriminate Hc. }
  destruct (Host.GoogleAuth H c) as [e|[]] eqn:Hauth.
  { cbn. repeat split; try discriminate; try tauto.
    - intros (s1 & l & cs & (_ & c' & [= <-] & Hc & _) & _). congruence.
    - intros (s1 & _ & c' & [= <-] & Hc & _). congruence. }
  destruct (Cal.getClient P s) as [[e|[]] s1] eqn:Hclient.
  { cbn. repeat split; try discriminate; try tauto.
    - intros (s1' & l & cs & (_ & c' & _ & _ & Hc) & _). discriminate Hc.
    - intros (s1' & _ & c' & _ & _ & Hc). discriminate Hc. }
  assert (Hacq : negb false = true /\
                 exists credentials : Host.Credentials H,
                   @inr Cal.Error _ c = inr credentials /\
                   Host.GoogleAuth H credentials = inr tt /\
                   (@inr Cal.Error unit tt, s1) = (inr tt, s1))
    by (split; [reflexivity|]; exists c; now repeat split).
  destruct (Host.calendarList_list H s1) as [[e|l] s2] eqn:Hlist.
  { cbn. repeat split; try discriminate.
    - intros (s1' & l & cs & (_ & c' & _ & _ & [= <-]) & Hl & _).
      rewrite Hlist in Hl. discriminate Hl.
    - intros _. exists s1. exact Hacq. }
  destruct (Host.items (Cal.data l)) as [cs|] eqn:Hitems.
  - cbn. repeat split; try discriminate.
    + intros _. exists s1, l, cs. now split.
    + intros _. exists s1. exact Hacq.
  - cbn. repeat split; try discriminate.
    + intros (s1' & l' & cs & (_ & c' & _ & _ & [= <-]) & Hl & Hi).
      rewrite Hlist in Hl. injection Hl as <-. congruence.
    + intros _. exists s1. exact Hacq.
Qed.

(** When the start-up of [index.js] acquires the client but its
    connection test is refused, [initializeGoogleCalendar] returns false
    and records the error, and yet the handle is installed: the gate in
    front of the operation routes lets every request through, and [GET /]
    reports the service ready and connected. *)
Theorem failed_connection_test_still_opens_routes
    (key : option string) (st : Index.State) (s s1 s2 : Cal.pstate P)
    (credentials : Host.Credentials H) (e : Cal.Error) :
  JS.truthy key = true ->
  Host.parse_credentials H (JS.tmpl key) = inr credentials ->
  Host.GoogleAuth H credentials = inr tt ->
  Cal.getClient P s = (inr tt, s1) ->
  Host.calendarList_list H s1 = (inl e, s2) ->
  let r := IndexAdmin.initializeGoogleCalendar P H key st s in
  let st' := snd (fst r) in
  fst (fst r) = false
  /\ snd r = s2
  /\ Index.authError st' = Some e
  /\ (forall next, Index.requireCalendar P st' next = next)
  /\ IndexAdmin.status (IndexAdmin.root st') = "ready"
  /\ IndexAdmin.authStatus (IndexAdmin.root st') = "connected".
Proof.
  intros Hkey Hparse Hauth Hclient Hlist. cbv zeta.
  unfold IndexAdmin.initializeGoogleCalendar.
  rewrite (truthy_not_falsy _ Hkey), Hparse, Hauth, Hclient, Hlist.
  cbn. repeat split.
Qed.

(** When [index.js] starts without a service-account key,
    [initializeGoogleCalendar] returns false without touching the
    provider, every operation route keeps answering that the service is
    still initializing, and [GET /] reports 'initializing' with the
    missing-key message as its auth status. *)
Theorem index_without_key_stays_initializing
    (rt : Runtime) (env : Env) (key : option string) (st : Index.State)
    (req : Request) (s : Cal.pstate P) :
  JS.falsy key = true ->
  Index.calendar st = None ->
  let r := IndexAdmin.initializeGoogleCalendar P H key st s in
  let st' := snd (fst r) in
  let idle := {| provider_state := s; log := [] |} in
  fst (fst r) = false
  /\ snd r = s
  /\ run (Index.check_availability P rt env st' req) s
     = (json Index.msg_initializing, idle)
  /\ run (Index.create_event P rt env st' req) s
     = (json Index.msg_initializing, idle)
  /\ run (Index.update_event P rt env st' req) s
     = (json Index.msg_initializing, idle)
  /\ run (Index.cancel_event P env st' req) s
     = (json Index.msg_initializing, idle)
  /\ IndexAdmin.status (IndexAdmin.root st') = "initializing"
  /\ IndexAdmin.authStatus (IndexAdmin.root st')
     = "GOOGLE_SERVICE_ACCOUNT_KEY environment variable not set".
Proof.
  intros Hkey Hcal. cbv zeta.
  unfold IndexAdmin.initializeGoogleCalendar. rewrite Hkey.
  unfold run, Index.check_availability, Index.create_event,
    Index.update_event, Index.cancel_event, Index.requireCalendar,
    IndexAdmin.root, IndexAdmin.failed.
  cbn. rewrite Hcal. repeat split.
Qed.

(** [GET /health] of [index.js] answers 200 and 'healthy' in every state
    and whatever the provider does.  Without a handle it does not probe
    the provider; with one it probes once and reports 'operational' when
    the probe is answered, and 'error' with the probe's message when it is
    refused. *)
Theorem index_health_is_always_200
    {U : Type} (now : string) (up : U) (st : Index.State)
    (s : Cal.pstate P) :
  let r := IndexAdmin.health P H now up st s in
  let body := snd (fst r) in
  fst (fst r) = 200
  /\ IndexAdmin.health_status body = "healthy"
  /\ (IndexAdmin.connected (IndexAdmin.calendar body) = true
      <-> Index.calendar st <> None)
  /\ (Index.calendar st = None ->
      snd r = s /\
      IndexAdmin.calendar_status (IndexAdmin.calendar body) = None)
  /\ (Index.calendar st <> None ->
      snd r = snd (Host.calendarList_list H s) /\
      match fst (Host.calendarList_list H s) with
      | inr _ =>
          IndexAdmin.calendar_status (IndexAdmin.calendar body)
            = Some "operational" /\
          IndexAdmin.error (IndexAdmin.calendar body)
            = option_map Cal.message (Index.authError st)
      | inl e =>
          IndexAdmin.calendar_status (IndexAdmin.calendar body)
            = Some "error" /\
          IndexAdmin.error (IndexAdmin.calendar body)
            = Some (Cal.message e)
      end).
Proof.
  cbv zeta. unfold IndexAdmin.health.
  destruct (Index.calendar st) as [h|].
  - destruct (Host.calendarList_list H s) as [[e|l] s1]; cbn;
      repeat split; congruence.
  - cbn. repeat split; congruence.
Qed.

End IndexStartup.

Lemma failed_connection_test_still_opens_routes_witness :
  fst (fst (IndexAdmin.initializeGoogleCalendar Fixture.busy
              (Fixture2.forbidden Fixture.busy) (Some "{}") Fixture2.cold
              0%nat)) = false
  /\ run (Index.cancel_event Fixture.busy Fixture.default_env
            (snd (fst (IndexAdmin.initializeGoogleCalendar Fixture.busy
                         (Fixture2.forbidden Fixture.busy) (Some "{}")
                         Fixture2.cold 0%nat)))
            {| args := ArgsObject Fixture.cancel_abc123 |}) 0%nat
     = (json Index.msg_cancelled,
        Build_World Fixture.busy 1%nat
          [ ok (Cal.EventsDelete
                  (delete_call Fixture.default_env Fixture.cancel_abc123)) ]).
Proof.
  pose proof
    (failed_connection_test_still_opens_routes Fixture.busy
       (Fixture2.forbidden Fixture.busy) (Some "{}") Fixture2.cold
       0%nat 0%nat 0%nat "{}" {| Cal.message := "Insufficient Permission" |}
       eq_refl eq_refl eq_refl eq_refl eq_refl) as Hthm.
  cbv zeta in Hthm. destruct Hthm as (Hfalse & _ & _ & Hgate & _).
  split; [exact Hfalse|].
  unfold Index.cancel_event. rewrite Hgate. vm_compute. reflexivity.
Defined.

Lemma index_without_key_stays_initializing_witness :
  run (Index.create_event Fixture.busy (Fixture.fixed_zone 0)
         Fixture.default_env
         (snd (fst (IndexAdmin.initializeGoogleCalendar Fixture.busy
                      (Fixture2.plain Fixture.busy) None Fixture2.cold
                      0%nat)))
         {| args := ArgsObject Fixture.dentist |}) 0%nat
  = (json Index.msg_initializing, Build_World Fixture.busy 0%nat []).
Proof.
  refine (proj1 (proj2 (proj2 (proj2
    (index_without_key_stays_initializing Fixture.busy
       (Fixture2.plain Fixture.busy) (Fixture.fixed_zone 0)
       Fixture.default_env None Fixture2.cold
       {| args := ArgsObject Fixture.dentist |} 0%nat _ _))))); reflexivity.
Defined.

Lemma initializeGoogleCalendar_outcome_witness :
  Index.authError
    (snd (fst (IndexAdmin.initializeGoogleCalendar Fixture.busy
                 (Fixture2.plain Fixture.busy) (Some "{}") Fixture2.cold
                 0%nat))) = None.
Proof.
  refine (proj1 (proj2
    (initializeGoogleCalendar_outcome Fixture.busy
       (Fixture2.plain Fixture.busy) (Some "{}") Fixture2.cold 0%nat)) _).
  reflexivity.
Defined.

Lemma index_health_is_always_200_witness :
  IndexAdmin.calendar_status
    (IndexAdmin.calendar
       (snd (fst (IndexAdmin.health Fixture.busy
                    (Fixture2.forbidden Fixture.busy)
                    "2024-06-01T09:00:00.000Z" 12 Fixture.ready 0%nat))))
  = Some "error"
  /\ IndexAdmin.error
       (IndexAdmin.calendar
          (snd (fst (IndexAdmin.health Fixture.busy
                       (Fixture2.forbidden Fixture.busy)
                       "2024-06-01T09:00:00.000Z" 12 Fixture.ready 0%nat))))
     = Some "Insufficient Permission".
Proof.
  refine (proj2 (proj2 (proj2 (proj2 (proj2
    (index_health_is_always_200 Fixture.busy
       (Fixture2.forbidden Fixture.busy) "2024-06-01T09:00:00.000Z" 12
       Fixture.ready 0%nat)))) _)).
  discriminate.
Defined.

Section ServerStartup.

Variable P : Cal.Provider.
Variable H : Host.t P.

(** The start-up block of [server.js] leaves no auth error exactly when
    the key is set, parses and the auth object is built; the provider is
    not contacted at start-up. *)
Theorem server_initialize_outcome (key : option string) :
  Server.authError (ServerAdmin.initialize P H key) = None
  <-> JS.truthy key = true /\
      exists credentials,
        Host.parse_credentials H (JS.tmpl key) = inr credentials /\
        Host.GoogleAuth H credentials = inr tt.
Proof.
  unfold ServerAdmin.initialize, JS.truthy.
  destruct (JS.falsy key); cbn.
  { split; [discriminate | intros [Hk _]; discriminate Hk]. }
  destruct (Host.parse_credentials H (JS.tmpl key)) as [e|c]; cbn.
  { split; [discriminate | intros (_ & c & Hc & _); discriminate Hc]. }
  destruct (Host.GoogleAuth H c) as [e|[]] eqn:Hauth; cbn.
  - split; [discriminate | intros (_ & c' & [= <-] & Hc); congruence].
  - split; [|reflexivity]. intros _. split; [reflexivity|]. now exists c.
Qed.

(** When [server.js] starts without a service-account key, both operation
    routes answer every request with 503 and the not-configured text
    without contacting the provider, [GET /health] answers 503 with the
    missing-key message without probing, and [GET /] reports 'error' with
    that message. *)
Theorem server_without_key_refuses
    (rt : Runtime) (key : option string) (req : Request) (s : Cal.pstate P) :
  JS.falsy key = true ->
  let sst := ServerAdmin.initialize P H key in
  let missing :=
    "GOOGLE_SERVICE_ACCOUNT_KEY environment variable is missing" in
  let unavailable :=
    {| status := 503; result := Server.msg_not_configured;
       res_eventId := None; res_eventLink := None |} in
  let idle := {| provider_state := s; log := [] |} in
  run (Server.check_availability P rt sst req) s = (unavailable, idle)
  /\ run (Server.create_event P rt sst req) s = (unavailable, idle)
  /\ ServerAdmin.health P H sst s = (503, ServerAdmin.AuthFailed P H missing, s)
  /\ ServerAdmin.status (ServerAdmin.root sst) = "error"
  /\ ServerAdmin.authStatus (ServerAdmin.root sst) = missing.
Proof.
  intros Hkey. cbv zeta. unfold ServerAdmin.initialize. rewrite Hkey.
  repeat split.
Qed.

(** [GET /health] of [server.js] answers 200 or 503, and 200 exactly when
    the start-up left no auth error, the client is acquired and the
    calendar list is answered; the body then counts the calendars listed,
    0 when the list has no [items]. *)
Theorem server_health_200_iff_connected
    (sst : Server.State) (s : Cal.pstate P) :
  let r := ServerAdmin.health P H sst s in
  (fst (fst r) = 200 \/ fst (fst r) = 503)
  /\ (fst (fst r) = 200
      <-> Server.authError sst = None /\
          exists s1 calendarList,
            Cal.getClient P s = (inr tt, s1) /\
            Host.calendarList_list H s1 = (inr calendarList, snd r) /\
            snd (fst r)
            = ServerAdmin.Healthy P H
                "Server is running and Google Calendar is connected"
                match Host.items (Cal.data calendarList) with
                | Some l => List.length l
                | None => 0%nat
                end).
Proof.
  cbv zeta. unfold ServerAdmin.health.
  destruct (Server.authError sst) as [e|]; cbn.
  { split; [now right|]. split; [discriminate | intros [Hn _]; discriminate Hn]. }
  destruct (Cal.getClient P s) as [[e|[]] s1]; cbn.
  { split; [now right|]. split; [discriminate|].
    intros (_ & s1' & l & Hc & _). discriminate Hc. }
  destruct (Host.calendarList_list H s1) as [[e|l] s2] eqn:Hlist; cbn.
  - split; [now right|]. split; [discriminate|].
    intros (_ & s1' & l & [= <-] & Hl & _). rewrite Hlist in Hl.
    discriminate Hl.
  - split; [now left|]. split; [|reflexivity].
    intros _. split; [reflexivity|]. exists s1, l. now repeat split.
Qed.

End ServerStartup.

Lemma server_initialize_outcome_witness :
  Server.authError
    (ServerAdmin.initialize Fixture.busy (Fixture2.plain Fixture.busy)
       (Some "{}")) = None.
Proof.
  apply (server_initialize_outcome Fixture.busy (Fixture2.plain Fixture.busy)
           (Some "{}")).
  split; [reflexivity|]. exists "{}". split; reflexivity.
Defined.

Lemma server_without_key_refuses_witness :
  ServerAdmin.health Fixture.busy (Fixture2.plain Fixture.busy)
    (ServerAdmin.initialize Fixture.busy (Fixture2.plain Fixture.busy) None)
    0%nat
  = (503,
     ServerAdmin.AuthFailed Fixture.busy (Fixture2.plain Fixture.busy)
       "GOOGLE_SERVICE_ACCOUNT_KEY environment variable is missing",
     0%nat).
Proof.
  refine (proj1 (proj2 (proj2
    (server_without_key_refuses Fixture.busy (Fixture2.plain Fixture.busy)
       (Fixture.fixed_zone 0) None {| args := ArgsUndefined |} 0%nat _)))).
  reflexivity.
Defined.

Lemma server_health_200_iff_connected_witness :
  fst (fst (ServerAdmin.health Fixture.busy (Fixture2.plain Fixture.busy)
              Fixture.server_ok 0%nat)) = 200.
Proof.
  apply (server_health_200_iff_connected Fixture.busy
           (Fixture2.plain Fixture.busy) Fixture.server_ok 0%nat).
  split; [reflexivity|].
  exists 0%nat, {| Cal.data := {| Host.items := Some ["primary"] |} |}.
  repeat split.
Defined.
